(** * video_clipper.py: the command runner and the session controller

    A shallow embedding of [src/video_clipper.py]: the [Worker] thread that
    runs one external command and classifies its result, and the [YtdlpGui]
    window that builds the two yt-dlp command lines and folds the worker's
    signals back into its widgets. *)

From Stdlib Require Import ZArith Ascii String DecimalString Sorting.Sorted.
From stdpp Require Import base tactics option list.

Local Open Scope Z_scope.

(** ** Python values used by the program *)

Module Py.

(** A Python [str] is a sequence of Unicode code points. *)
Definition pystr := list N.

(** An ASCII literal, written as a Rocq string. *)
Definition str (s : string) : pystr :=
  map N_of_ascii (list_ascii_of_string s).

Arguments str : simpl never.

(** [str.isspace] on one character: the code points CPython classifies as
    whitespace. *)
Definition isspace (c : N) : bool :=
  ((0x09 <=? c) && (c <=? 0x0D) || (0x1C <=? c) && (c <=? 0x20)
   || (c =? 0x85) || (c =? 0xA0) || (c =? 0x1680)
   || (0x2000 <=? c) && (c <=? 0x200A)
   || (c =? 0x2028) || (c =? 0x2029) || (c =? 0x202F) || (c =? 0x205F)
   || (c =? 0x3000))%N.

Fixpoint lstrip (s : pystr) : pystr :=
  match s with
  | c :: s' => if isspace c then lstrip s' else s
  | [] => []
  end.

Definition rstrip (s : pystr) : pystr := reverse (lstrip (reverse s)).

(** [s.strip()] *)
Definition strip (s : pystr) : pystr := rstrip (lstrip s).

(** [s.find(c)] for a one-character needle: the least index, or -1. *)
Fixpoint find (c : N) (s : pystr) : Z :=
  match s with
  | [] => -1
  | x :: s' =>
      if (x =? c)%N then 0
      else let i := find c s' in if i =? -1 then -1 else i + 1
  end.

(** [s[i:]] for [0 <= i]. *)
Definition slice_from (i : Z) (s : pystr) : pystr := drop (Z.to_nat i) s.

(** [s.startswith(c)] and [s.endswith(c)] for a one-character [c]. *)
Definition startswith (c : N) (s : pystr) : bool :=
  match s with x :: _ => (x =? c)%N | [] => false end.

Definition endswith (c : N) (s : pystr) : bool :=
  match last s with Some x => (x =? c)%N | None => false end.

(** [c in s] for a one-character [c]. *)
Definition contains (c : N) (s : pystr) : bool :=
  existsb (N.eqb c) s.

(** [str(n)] for an integer. *)
Definition str_of_int (n : Z) : pystr :=
  str (NilEmpty.string_of_int (Z.to_int n)).

Arguments str_of_int : simpl never.

(** [sep.join(l)] *)
Fixpoint join (sep : pystr) (l : list pystr) : pystr :=
  match l with
  | [] => []
  | [x] => x
  | x :: l' => x ++ sep ++ join sep l'
  end.

(** The character class of the pattern handed to [re.sub] in
    [download_clip]: backslash, slash, star, question mark, colon, double
    quote, less-than, greater-than and vertical bar, as code points. *)
Definition forbidden : pystr :=
  [92; 47; 42; 63; 58; 34; 60; 62; 124]%N.

Definition is_forbidden (c : N) : bool := existsb (N.eqb c) forbidden.

(** [re.sub] with that one-character class and the empty replacement:
    every match is deleted. *)
Definition re_sub_forbidden (s : pystr) : pystr :=
  filter (fun c => is_forbidden c = false) s.

(** [os.path.join(a, b)] of [posixpath]. *)
Definition slash : N := 47%N.

Definition os_path_join (a b : pystr) : pystr :=
  if startswith slash b then b
  else if bool_decide (a = []) || endswith slash a then a ++ b
  else a ++ [slash] ++ b.

(** [sorted(l, key=key, reverse=True)] for integer keys: descending, and
    stable (elements with equal keys keep their order). *)
Fixpoint insert_desc {A} (key : A -> Z) (x : A) (l : list A) : list A :=
  match l with
  | [] => [x]
  | y :: l' =>
      if key y <=? key x then x :: y :: l' else y :: insert_desc key x l'
  end.

Fixpoint sorted_reverse {A} (key : A -> Z) (l : list A) : list A :=
  match l with
  | [] => []
  | x :: l' => insert_desc key x (sorted_reverse key l')
  end.

(** The newline character. *)
Definition nl : pystr := [10%N].

(** Equality test of two strings. *)
Definition eqb (a b : pystr) : bool := bool_decide (a = b).

(** [needle] occurs in [s] as a contiguous substring. *)
Definition substring (needle s : pystr) : Prop :=
  exists pre post, s = pre ++ needle ++ post.

End Py.

(** ** The metadata yt-dlp prints

    The JSON object of [yt-dlp --dump-json], as the program reads it: through
    [dict.get] on the keys below and nothing else.  A key is absent ([None])
    or holds a value of the type the data model gives it. *)

Module Metadata.
Import Py.

(** A JSON number that is only ever printed: an integer, or a float carried
    by its [str()] rendering. *)
Inductive number :=
  | Int (z : Z)
  | Float (rendering : pystr).

Definition str_of_number (n : number) : pystr :=
  match n with
  | Int z => str_of_int z
  | Float r => r
  end.

(** One element of [info['formats']].  A key is absent ([None]) or holds a
    value.  The keys 'fps' and 'abr' are read with a default that is not
    [None], so for them a key that is present and holds null ([Some None])
    is told apart from an absent key; for the other keys [get] returns
    [None] in both cases. *)
Record format_dict := {
  format_id : option pystr;
  ext : option pystr;
  vcodec : option pystr;
  acodec : option pystr;
  height : option Z;
  fps : option (option number);
  abr : option (option number)
}.

(** [str(v)] of a value that is null or a number. *)
Definition str_of_value (v : option number) : pystr :=
  match v with
  | Some n => str_of_number n
  | None => str "None"
  end.

(** The object itself.  [other_keys] records whether it has any key besides
    the four that are read; only [bool(info)] depends on it. *)
Record info_dict := {
  title : option pystr;
  duration : option Z;
  webpage_url : option pystr;
  formats : option (list format_dict);
  other_keys : bool
}.

(** [bool(info)] for a dict: it has at least one key. *)
Definition truthy (info : info_dict) : bool :=
  bool_decide (is_Some (title info)) || bool_decide (is_Some (duration info))
  || bool_decide (is_Some (webpage_url info))
  || bool_decide (is_Some (formats info)) || other_keys info.

(** [str(x)] of the result of [d.get(key)] on a string-valued key. *)
Definition str_of_get (x : option pystr) : pystr :=
  match x with
  | Some s => s
  | None => str "None"
  end.

End Metadata.

(** ** Worker: the command runner *)

Module Worker.
Import Py Metadata.

(** The exceptions [run] tells apart, each with its [str(e)]. *)
Inductive exn :=
  | FileNotFoundError (msg : pystr)
  | JSONDecodeError (msg : pystr)
  | OtherError (msg : pystr).

Definition exn_str (e : exn) : pystr :=
  match e with
  | FileNotFoundError m | JSONDecodeError m | OtherError m => m
  end.

Inductive result (A : Type) :=
  | Return (a : A)
  | Raise (e : exn).
Arguments Return {A} a.
Arguments Raise {A} e.

(** The three Qt signals of the class.  [finished] carries the parsed
    object, or [None]. *)
Inductive signal :=
  | progress (text : pystr)
  | finished (obj : option info_dict)
  | error (msg : pystr).

(** A child process that ends, as [run] observes it: the lines [readline]
    returns before end of file, then what [wait] does (an exception raised
    while reading the pipe is placed there too: nothing follows it).  A
    child that never closes its output or never exits is not described:
    [run] blocks on it and emits no terminal signal. *)
Record process := {
  stdout : list pystr;
  wait : result Z
}.

(** What [json.loads] does with a text: the parsed object, a
    [JSONDecodeError] for a text that is not a JSON document, or another
    exception of the decoder (its recursion limit, say). *)
Inductive loads_result :=
  | Parsed (value : info_dict)
  | Invalid (msg : pystr)
  | Failure (msg : pystr).

Definition result_of_loads (r : loads_result) : result info_dict :=
  match r with
  | Parsed value => Return value
  | Invalid msg => Raise (JSONDecodeError msg)
  | Failure msg => Raise (OtherError msg)
  end.

(** What [run] calls outside this repository. *)
Class Platform := {
  Popen : list pystr -> result process;
  json_loads : pystr -> loads_result
}.

(** Code that emits signals and may raise. *)
Definition M (A : Type) : Type := list signal * result A.

Definition ret {A} (a : A) : M A := ([], Return a).

Definition bind {A B} (m : M A) (k : A -> M B) : M B :=
  match m with
  | (out, Return a) => let (out', r) := k a in (out ++ out', r)
  | (out, Raise e) => (out, Raise e)
  end.

Definition emit (s : signal) : M unit := ([s], Return tt).

Definition lift {A} (r : result A) : M A := ([], r).

(** [try: body / except ...: handler]; [handler e = None] when no clause
    matches [e]. *)
Definition try_except {A} (body : M A) (handler : exn -> option (M A)) : M A :=
  match body with
  | (out, Raise e) =>
      match handler e with
      | Some h => let (out', r) := h in (out ++ out', r)
      | None => (out, Raise e)
      end
  | (out, Return a) => (out, Return a)
  end.

Notation "x <- m ;; k" := (bind m (fun x => k))
  (at level 100, m at next level, right associativity).
Notation "m ;;; k" := (bind m (fun _ => k))
  (at level 100, right associativity).

(** The [for line in iter(readline, '')] loop. *)
Fixpoint read_lines (lines : list pystr) (full_output : pystr) : M pystr :=
  match lines with
  | [] => ret full_output
  | line :: rest =>
      emit (progress (strip line)) ;;;
      read_lines rest (full_output ++ line)
  end.

(** [x in command] *)
Definition elem (x : pystr) (command : list pystr) : bool :=
  existsb (Py.eqb x) command.

(** [command[0]] *)
Definition index0 (command : list pystr) : result pystr :=
  match command with
  | c :: _ => Return c
  | [] => Raise (OtherError (str "list index out of range"))
  end.

Definition brace : N := 123%N.

(** Line 78. *)
Definition is_json_dump (command : list pystr) : bool :=
  elem (str "-j") command || elem (str "--dump-json") command.

Definition run `{Platform} (command : list pystr) : M unit :=
  try_except
    (process <- lift (Popen command) ;;
     full_output <- read_lines (stdout process) [] ;;
     return_code <- lift (wait process) ;;
     if is_json_dump command then
       try_except
         (let json_start_index := find brace full_output in
          if negb (json_start_index =? -1) then
            let json_data_string := slice_from json_start_index full_output in
            json_output <-
              lift (result_of_loads (json_loads json_data_string)) ;;
            emit (finished (Some json_output))
          else
            emit (error (str "Could not find video information in the output.")))
         (fun e =>
            match e with
            | JSONDecodeError _ =>
                Some (emit (error (str
                  "Failed to parse video information from yt-dlp's output.")))
            | _ => None
            end)
     else if return_code =? 0 then
       emit (finished None)
     else
       emit (error (str "Process finished with error code "
                    ++ str_of_int return_code)))
    (fun e =>
       match e with
       | FileNotFoundError _ =>
           Some (c <- lift (index0 command) ;;
                 emit (error (str "Error: Command '" ++ c
                              ++ str "' not found. Is it in your PATH?")))
       | _ =>
           Some (emit (error (str "An unexpected error occurred: "
                              ++ exn_str e)))
       end).

End Worker.

(** ** The Qt widgets the window holds *)

Module Qt.
Import Py.

(** [QComboBox]: the entries (display text and user data), the current
    index (-1 when there is none) and the enabled flag. *)
Record QComboBox (A : Type) := {
  items : list (pystr * A);
  currentIndex : Z;
  isEnabled : bool
}.
Arguments items {A} _.
Arguments currentIndex {A} _.
Arguments isEnabled {A} _.

Section ComboBox.
Context {A : Type}.

Definition clear (c : QComboBox A) : QComboBox A :=
  {| items := []; currentIndex := -1; isEnabled := isEnabled c |}.

(** Appending to an empty box makes the new entry current. *)
Definition addItem (text : pystr) (userData : A) (c : QComboBox A)
  : QComboBox A :=
  {| items := items c ++ [(text, userData)];
     currentIndex := match items c with [] => 0 | _ => currentIndex c end;
     isEnabled := isEnabled c |}.

Definition setEnabled (b : bool) (c : QComboBox A) : QComboBox A :=
  {| items := items c; currentIndex := currentIndex c; isEnabled := b |}.

Definition setCurrentIndex (i : Z) (c : QComboBox A) : QComboBox A :=
  {| items := items c;
     currentIndex :=
       if (0 <=? i) && (i <? Z.of_nat (length (items c))) then i else -1;
     isEnabled := isEnabled c |}.

(** [itemData(index)]: [None] for an index that names no entry. *)
Definition itemData (i : Z) (c : QComboBox A) : option A :=
  if i <? 0 then None else snd <$> items c !! Z.to_nat i.

Definition currentData (c : QComboBox A) : option A :=
  itemData (currentIndex c) c.
End ComboBox.

(** [QTime], to the second: seconds since midnight. *)
Definition QTime := Z.

(** The argument of [addSecs] is converted to a C int: for a Python int
    outside its range the binding raises OverflowError and the call does
    not take place. *)
Definition fits_int (s : Z) : bool := (- 2 ^ 31 <=? s) && (s <? 2 ^ 31).

(** [t.addSecs(s)], wrapping at midnight; [None] is the OverflowError. *)
Definition addSecs (s : Z) (t : QTime) : option QTime :=
  if fits_int s then Some ((t + s) mod 86400) else None.

Definition two_digits (n : Z) : pystr :=
  (if n <? 10 then str "0" else []) ++ str_of_int n.

(** [t.toString("HH:mm:ss")] *)
Definition toString (t : QTime) : pystr :=
  two_digits (t / 3600) ++ str ":" ++ two_digits (t / 60 mod 60)
  ++ str ":" ++ two_digits (t mod 60).

(** [QTimeEdit]: the time shown and the range it is kept in. *)
Record QTimeEdit := {
  time : QTime;
  minimumTime : QTime;
  maximumTime : QTime
}.

Definition bound (lo hi t : QTime) : QTime := Z.max lo (Z.min hi t).

Definition setTime (t : QTime) (e : QTimeEdit) : QTimeEdit :=
  {| time := bound (minimumTime e) (maximumTime e) t;
     minimumTime := minimumTime e;
     maximumTime := maximumTime e |}.

Definition setMaximumTime (m : QTime) (e : QTimeEdit) : QTimeEdit :=
  let lo := Z.min (minimumTime e) m in
  {| time := bound lo m (time e); minimumTime := lo; maximumTime := m |}.

(** [QLineEdit] *)
Record QLineEdit := {
  text : pystr;
  lineEnabled : bool
}.

(** A modal [QMessageBox]. *)
Inductive QMessageBox :=
  | warning (title body : pystr)
  | critical (title body : pystr)
  | information (title body : pystr).

End Qt.

(** ** YtdlpGui: the session controller *)

Module YtdlpGui.
Import Py Metadata Worker Qt.

(** The user data of a video entry: the dict with keys 'id' and 'merged'. *)
Record video_data := {
  id : option pystr;
  merged : bool
}.

(** The worker the window last started: its command, and the pair of slots
    its [finished] and [error] signals are connected to. *)
Inductive slots := FetchSlots | DownloadSlots.

Record Thread := {
  command : list pystr;
  connected : slots
}.

(** The attributes of the window that its methods read or write. *)
Record Gui := {
  video_info : option info_dict;
  url_input : QLineEdit;
  fetch_button : bool;
  title_label : pystr;
  duration_label : pystr;
  video_quality_combo : QComboBox video_data;
  audio_quality_combo : QComboBox (option pystr);
  start_time_edit : QTimeEdit;
  end_time_edit : QTimeEdit;
  output_path_input : pystr;
  filename_input : pystr;
  download_button : bool;
  log_output : list pystr;
  worker : option Thread
}.

(** Assignment to one attribute. *)
Definition set_video_info (v : option info_dict) (self : Gui) : Gui :=
  {| video_info := v;
     url_input := url_input self;
     fetch_button := fetch_button self;
     title_label := title_label self;
     duration_label := duration_label self;
     video_quality_combo := video_quality_combo self;
     audio_quality_combo := audio_quality_combo self;
     start_time_edit := start_time_edit self;
     end_time_edit := end_time_edit self;
     output_path_input := output_path_input self;
     filename_input := filename_input self;
     download_button := download_button self;
     log_output := log_output self;
     worker := worker self |}.

Definition set_url_input (v : QLineEdit) (self : Gui) : Gui :=
  {| video_info := video_info self;
     url_input := v;
     fetch_button := fetch_button self;
     title_label := title_label self;
     duration_label := duration_label self;
     video_quality_combo := video_quality_combo self;
     audio_quality_combo := audio_quality_combo self;
     start_time_edit := start_time_edit self;
     end_time_edit := end_time_edit self;
     output_path_input := output_path_input self;
     filename_input := filename_input self;
     download_button := download_button self;
     log_output := log_output self;
     worker := worker self |}.

Definition set_fetch_button (v : bool) (self : Gui) : Gui :=
  {| video_info := video_info self;
     url_input := url_input self;
     fetch_button := v;
     title_label := title_label self;
     duration_label := duration_label self;
     video_quality_combo := video_quality_combo self;
     audio_quality_combo := audio_quality_combo self;
     start_time_edit := start_time_edit self;
     end_time_edit := end_time_edit self;
     output_path_input := output_path_input self;
     filename_input := filename_input self;
     download_button := download_button self;
     log_output := log_output self;
     worker := worker self |}.

Definition set_title_label (v : pystr) (self : Gui) : Gui :=
  {| video_info := video_info self;
     url_input := url_input self;
     fetch_button := fetch_button self;
     title_label := v;
     duration_label := duration_label self;
     video_quality_combo := video_quality_combo self;
     audio_quality_combo := audio_quality_combo self;
     start_time_edit := start_time_edit self;
     end_time_edit := end_time_edit self;
     output_path_input := output_path_input self;
     filename_input := filename_input self;
     download_button := download_button self;
     log_output := log_output self;
     worker := worker self |}.

Definition set_duration_label (v : pystr) (self : Gui) : Gui :=
  {| video_info := video_info self;
     url_input := url_input self;
     fetch_button := fetch_button self;
     title_label := title_label self;
     duration_label := v;
     video_quality_combo := video_quality_combo self;
     audio_quality_combo := audio_quality_combo self;
     start_time_edit := start_time_edit self;
     end_time_edit := end_time_edit self;
     output_path_input := output_path_input self;
     filename_input := filename_input self;
     download_button := download_button self;
     log_output := log_output self;
     worker := worker self |}.

Definition set_video_quality_combo (v : QComboBox video_data) (self : Gui) : Gui :=
  {| video_info := video_info self;
     url_input := url_input self;
     fetch_button := fetch_button self;
     title_label := title_label self;
     duration_label := duration_label self;
     video_quality_combo := v;
     audio_quality_combo := audio_quality_combo self;
     start_time_edit := start_time_edit self;
     end_time_edit := end_time_edit self;
     output_path_input := output_path_input self;
     filename_input := filename_input self;
     download_button := download_button self;
     log_output := log_output self;
     worker := worker self |}.

Definition set_audio_quality_combo (v : QComboBox (option pystr)) (self : Gui) : Gui :=
  {| video_info := video_info self;
     url_input := url_input self;
     fetch_button := fetch_button self;
     title_label := title_label self;
     duration_label := duration_label self;
     video_quality_combo := video_quality_combo self;
     audio_quality_combo := v;
     start_time_edit := start_time_edit self;
     end_time_edit := end_time_edit self;
     output_path_input := output_path_input self;
     filename_input := filename_input self;
     download_button := download_button self;
     log_output := log_output self;
     worker := worker self |}.

Definition set_start_time_edit (v : QTimeEdit) (self : Gui) : Gui :=
  {| video_info := video_info self;
     url_input := url_input self;
     fetch_button := fetch_button self;
     title_label := title_label self;
     duration_label := duration_label self;
     video_quality_combo := video_quality_combo self;
     audio_quality_combo := audio_quality_combo self;
     start_time_edit := v;
     end_time_edit := end_time_edit self;
     output_path_input := output_path_input self;
     filename_input := filename_input self;
     download_button := download_button self;
     log_output := log_output self;
     worker := worker self |}.

Definition set_end_time_edit (v : QTimeEdit) (self : Gui) : Gui :=
  {| video_info := video_info self;
     url_input := url_input self;
     fetch_button := fetch_button self;
     title_label := title_label self;
     duration_label := duration_label self;
     video_quality_combo := video_quality_combo self;
     audio_quality_combo := audio_quality_combo self;
     start_time_edit := start_time_edit self;
     end_time_edit := v;
     output_path_input := output_path_input self;
     filename_input := filename_input self;
     download_button := download_button self;
     log_output := log_output self;
     worker := worker self |}.

Definition set_output_path_input (v : pystr) (self : Gui) : Gui :=
  {| video_info := video_info self;
     url_input := url_input self;
     fetch_button := fetch_button self;
     title_label := title_label self;
     duration_label := duration_label self;
     video_quality_combo := video_quality_combo self;
     audio_quality_combo := audio_quality_combo self;
     start_time_edit := start_time_edit self;
     end_time_edit := end_time_edit self;
     output_path_input := v;
     filename_input := filename_input self;
     download_button := download_button self;
     log_output := log_output self;
     worker := worker self |}.

Definition set_filename_input (v : pystr) (self : Gui) : Gui :=
  {| video_info := video_info self;
     url_input := url_input self;
     fetch_button := fetch_button self;
     title_label := title_label self;
     duration_label := duration_label self;
     video_quality_combo := video_quality_combo self;
     audio_quality_combo := audio_quality_combo self;
     start_time_edit := start_time_edit self;
     end_time_edit := end_time_edit self;
     output_path_input := output_path_input self;
     filename_input := v;
     download_button := download_button self;
     log_output := log_output self;
     worker := worker self |}.

Definition set_download_button (v : bool) (self : Gui) : Gui :=
  {| video_info := video_info self;
     url_input := url_input self;
     fetch_button := fetch_button self;
     title_label := title_label self;
     duration_label := duration_label self;
     video_quality_combo := video_quality_combo self;
     audio_quality_combo := audio_quality_combo self;
     start_time_edit := start_time_edit self;
     end_time_edit := end_time_edit self;
     output_path_input := output_path_input self;
     filename_input := filename_input self;
     download_button := v;
     log_output := log_output self;
     worker := worker self |}.

Definition set_log_output (v : list pystr) (self : Gui) : Gui :=
  {| video_info := video_info self;
     url_input := url_input self;
     fetch_button := fetch_button self;
     title_label := title_label self;
     duration_label := duration_label self;
     video_quality_combo := video_quality_combo self;
     audio_quality_combo := audio_quality_combo self;
     start_time_edit := start_time_edit self;
     end_time_edit := end_time_edit self;
     output_path_input := output_path_input self;
     filename_input := filename_input self;
     download_button := download_button self;
     log_output := v;
     worker := worker self |}.

Definition set_worker (v : option Thread) (self : Gui) : Gui :=
  {| video_info := video_info self;
     url_input := url_input self;
     fetch_button := fetch_button self;
     title_label := title_label self;
     duration_label := duration_label self;
     video_quality_combo := video_quality_combo self;
     audio_quality_combo := audio_quality_combo self;
     start_time_edit := start_time_edit self;
     end_time_edit := end_time_edit self;
     output_path_input := output_path_input self;
     filename_input := filename_input self;
     download_button := download_button self;
     log_output := log_output self;
     worker := v |}.

(** [self.log_output.append(text)] *)
Definition log_append (text : pystr) (self : Gui) : Gui :=
  set_log_output (log_output self ++ [text]) self.

Definition update_ui_state (initial fetching info_loaded downloading : bool)
    (self : Gui) : Gui :=
  let self :=
    if initial then
      let self := set_download_button false self in
      let self :=
        set_video_quality_combo
          (setEnabled false (video_quality_combo self)) self in
      set_audio_quality_combo (setEnabled false (audio_quality_combo self)) self
    else self in
  let self := set_fetch_button (negb (fetching || downloading)) self in
  let self :=
    set_url_input {| text := text (url_input self);
                     lineEnabled := negb (fetching || downloading) |} self in
  let can_download := info_loaded && negb downloading && negb fetching in
  let self := set_download_button can_download self in
  let self :=
    set_video_quality_combo
      (setEnabled can_download (video_quality_combo self)) self in
  set_audio_quality_combo
    (setEnabled can_download (audio_quality_combo self)) self.

(** The window as [__init__] leaves it; [home] is
    [os.path.expanduser("~")]. *)
Definition init (home : pystr) : Gui :=
  let empty A : QComboBox A :=
    {| items := []; currentIndex := -1; isEnabled := true |} in
  let midnight :=
    {| time := 0; minimumTime := 0; maximumTime := 86399 |} in
  update_ui_state true false false false
    {| video_info := None;
       url_input := {| text := []; lineEnabled := true |};
       fetch_button := true;
       title_label := str "Video Title: (fetch info to see)";
       duration_label := str "Duration: 00:00:00";
       video_quality_combo := empty video_data;
       audio_quality_combo := empty (option pystr);
       start_time_edit := midnight;
       end_time_edit := midnight;
       output_path_input := home;
       filename_input := [];
       download_button := true;
       log_output := [];
       worker := None |}.

Definition _on_video_quality_changed (index : Z) (self : Gui) : Gui :=
  if index <? 0 then self
  else
    match itemData index (video_quality_combo self) with
    | Some video_data =>
        let is_merged := merged video_data in
        set_audio_quality_combo
          (setEnabled (negb is_merged) (audio_quality_combo self)) self
    | None => self
    end.

(** A change of the video box, with the [currentIndexChanged] signal that
    [__init__] connects to the handler above: it fires when the current
    index differs from what it was. *)
Definition change_video_combo
    (f : QComboBox video_data -> QComboBox video_data) (self : Gui) : Gui :=
  let old := currentIndex (video_quality_combo self) in
  let self := set_video_quality_combo (f (video_quality_combo self)) self in
  let new := currentIndex (video_quality_combo self) in
  if new =? old then self else _on_video_quality_changed new self.

(** The user picks entry [i] of a box. *)
Definition select_video (i : Z) (self : Gui) : Gui :=
  change_video_combo (setCurrentIndex i) self.

Definition select_audio (i : Z) (self : Gui) : Gui :=
  set_audio_quality_combo (setCurrentIndex i (audio_quality_combo self)) self.

Definition on_fetch_error (error_message : pystr) (self : Gui)
    : Gui * QMessageBox :=
  let self := log_append (nl ++ str "ERROR: " ++ error_message) self in
  let box :=
    critical (str "Error")
      (str "Failed to fetch video info." ++ nl ++ nl ++ error_message) in
  (update_ui_state false false false false self, box).

(** The key of the sort: [x.get('height', 0) or 0]. *)
Definition height_key (x : format_dict) : Z := default 0 (height x).

(** [f.get(key) != 'none'] and [f.get(key) == 'none'] *)
Definition is_not_none (codec : option pystr) : bool :=
  negb (bool_decide (codec = Some (str "none"))).

Definition is_none (codec : option pystr) : bool :=
  bool_decide (codec = Some (str "none")).

(** [bool(height)] *)
Definition height_truthy (height : option Z) : bool :=
  match height with
  | Some h => negb (h =? 0)
  | None => false
  end.

(** The two tests of the loop body. *)
Definition video_test (f : format_dict) : bool :=
  is_not_none (vcodec f) && height_truthy (height f).

Definition audio_test (f : format_dict) : bool :=
  is_not_none (acodec f) && is_none (vcodec f).

Definition video_item (f : format_dict) : pystr * video_data :=
  let is_merged := is_not_none (acodec f) in
  let note := if is_merged then str " (Video+Audio)" else str " (Video Only)" in
  let label :=
    from_option str_of_int (str "None") (height f) ++ str "p ("
    ++ from_option str_of_value (str "N/A") (fps f) ++ str "fps, "
    ++ str_of_get (ext f) ++ str ")" ++ note in
  (label, {| id := format_id f; merged := is_merged |}).

Definition audio_item (f : format_dict) : pystr * option pystr :=
  let label :=
    from_option str_of_value (str "0") (abr f) ++ str "k ("
    ++ str_of_get (acodec f) ++ str ", " ++ str_of_get (ext f) ++ str ")" in
  (label, format_id f).

(** One turn of [for f in formats]. *)
Definition add_format (self : Gui) (f : format_dict) : Gui :=
  let self :=
    if video_test f then
      let '(label, data) := video_item f in
      change_video_combo (addItem label data) self
    else self in
  if audio_test f then
    let '(label, data) := audio_item f in
    set_audio_quality_combo (addItem label data (audio_quality_combo self)) self
  else self.

(** How a slot ends: it returns, having shown a message box or none, or
    the OverflowError of [addSecs] leaves it (the binding prints the
    traceback and the event loop goes on). *)
Inductive slot_outcome :=
  | Returns (box : option QMessageBox)
  | Overflows.

(** Lines 142-181, reached with the duration converted to a [QTime]. *)
Definition show_video_info (d : info_dict) (duration_time : QTime)
    (self : Gui) : Gui :=
  let self :=
    set_duration_label (str "Duration: " ++ toString duration_time) self in
  let self :=
    set_end_time_edit (setTime duration_time (end_time_edit self)) self in
  let self :=
    set_end_time_edit (setMaximumTime duration_time (end_time_edit self))
      self in
  let self :=
    set_start_time_edit
      (setMaximumTime duration_time (start_time_edit self)) self in
  let self := set_start_time_edit (setTime 0 (start_time_edit self)) self in
  let self := change_video_combo clear self in
  let self :=
    set_audio_quality_combo (clear (audio_quality_combo self)) self in
  let formats := sorted_reverse height_key (default [] (formats d)) in
  let self := fold_left add_format formats self in
  let self := update_ui_state false false true false self in
  _on_video_quality_changed (currentIndex (video_quality_combo self)) self.

Definition on_fetch_finished (info : option info_dict) (self : Gui)
    : Gui * slot_outcome :=
  match info with
  | Some d =>
      if truthy d then
        let self :=
          log_append (nl ++ str "Successfully parsed video information!")
            self in
        let self := set_video_info (Some d) self in
        let self :=
          set_title_label
            (str "Video Title: " ++ default (str "N/A") (title d)) self in
        let duration := default 0 (duration d) in
        match addSecs duration 0 with
        | Some duration_time =>
            (show_video_info d duration_time self, Returns None)
        | None => (self, Overflows)
        end
      else
        let '(self, box) :=
          on_fetch_error (str "Received empty video information.") self in
        (self, Returns (Some box))
  | None =>
      let '(self, box) :=
        on_fetch_error (str "Received empty video information.") self in
      (self, Returns (Some box))
  end.

(** How a call of [download_clip] ends: a warning box and an early return,
    a worker started on a command, or an exception that leaves the slot. *)
Inductive download_outcome :=
  | Rejected (box : QMessageBox)
  | Started (command : list pystr)
  | Uncaught (e : exn).

(** [f"'{c}'" if " " in c else c] *)
Definition quote_arg (c : pystr) : pystr :=
  if contains 32%N c then str "'" ++ c ++ str "'" else c.

(** The format of the default template name. *)
Definition ext_suffix : pystr := str ".%(ext)s".

(** Lines 212-218: the value of [output_template]. *)
Definition output_template (self : Gui) : result pystr :=
  let output_path := output_path_input self in
  let filename := strip (filename_input self) in
  if bool_decide (filename = []) then
    match video_info self with
    | Some info =>
        let safe_title :=
          re_sub_forbidden (default (str "video") (title info)) in
        Return (os_path_join output_path (safe_title ++ ext_suffix))
    | None =>
        Raise (OtherError (str "'NoneType' object has no attribute 'get'"))
    end
  else Return (os_path_join output_path (filename ++ ext_suffix)).

(** Lines 206-229, reached with [formats_to_dl] computed. *)
Definition download_formats (formats_to_dl : option pystr) (self : Gui)
    : Gui * download_outcome :=
  let start_time := toString (time (start_time_edit self)) in
  let end_time := toString (time (end_time_edit self)) in
  if time (start_time_edit self) >=? time (end_time_edit self) then
    (self, Rejected (warning (str "Time Error")
                       (str "Start time must be before end time.")))
  else
    match output_template self, video_info self with
    | Raise e, _ => (self, Uncaught e)
    | Return _, None =>
        (self,
         Uncaught (OtherError (str "'NoneType' object has no attribute 'get'")))
    | Return output_template, Some info =>
        let self := log_append (nl ++ repeat 61%N 50) self in
        let self := log_append (str "Starting download with command:") self in
        match formats_to_dl, webpage_url info with
        | Some formats_to_dl, Some url =>
            let command :=
              [str "yt-dlp"; str "-f"; formats_to_dl;
               str "--download-sections";
               str "*" ++ start_time ++ str "-" ++ end_time;
               str "--force-keyframes-at-cuts"; str "--merge-output-format";
               str "mkv"; str "-o"; output_template; url] in
            let self :=
              log_append (join (str " ") (map quote_arg command)) self in
            let self := log_append (repeat 61%N 50 ++ nl) self in
            let self := update_ui_state false false false true self in
            let self :=
              set_worker
                (Some {| command := command; connected := DownloadSlots |})
                self in
            (self, Started command)
        | _, _ =>
            (self,
             Uncaught
               (OtherError (str "argument of type 'NoneType' is not iterable")))
        end
    end.

Definition download_clip (self : Gui) : Gui * download_outcome :=
  match currentData (video_quality_combo self) with
  | None =>
      (self, Rejected (warning (str "Selection Error")
                         (str "Please select a video quality.")))
  | Some video_data =>
      let video_format_id := id video_data in
      let is_video_merged := merged video_data in
      if is_video_merged then download_formats video_format_id self
      else
        match mjoin (currentData (audio_quality_combo self)) with
        | Some ((_ :: _) as audio_format_id) =>
            download_formats
              (Some (str_of_get video_format_id ++ str "+" ++ audio_format_id))
              self
        | _ =>
            (self,
             Rejected
               (warning (str "Selection Error")
                  (str "This video format has no audio. Please select an audio format to merge.")))
        end
  end.

Definition fetch_video_info (self : Gui) : Gui * option QMessageBox :=
  let url := strip (text (url_input self)) in
  if bool_decide (url = []) then
    (self, Some (warning (str "Input Error") (str "Please enter a video URL.")))
  else
    let self := set_log_output [] self in
    let self :=
      log_append (str "Fetching info for: " ++ url ++ str "...") self in
    let self := update_ui_state false true false false self in
    let command := [str "yt-dlp"; str "--dump-json"; url] in
    (set_worker (Some {| command := command; connected := FetchSlots |}) self,
     None).

(** [directory] is what the folder dialog returned (empty when dismissed). *)
Definition select_output_location (directory : pystr) (self : Gui) : Gui :=
  match directory with
  | [] => self
  | _ => set_output_path_input directory self
  end.

Definition on_download_finished (_ : option info_dict) (self : Gui)
    : Gui * QMessageBox :=
  let self :=
    log_append (nl ++ str "Download completed successfully!") self in
  let self := update_ui_state false false true false self in
  (self, information (str "Success") (str "Video clip has been downloaded!")).

Definition on_download_error (error_message : pystr) (self : Gui)
    : Gui * QMessageBox :=
  let self :=
    log_append (nl ++ str "DOWNLOAD ERROR: " ++ error_message) self in
  let self := update_ui_state false false true false self in
  (self,
   critical (str "Download Error")
     (str "The download failed." ++ nl ++ nl
      ++ str "Check the log for details.")).

Definition update_log (text : pystr) (self : Gui) : Gui :=
  log_append text self.

Definition with_box (r : Gui * QMessageBox) : Gui * slot_outcome :=
  (fst r, Returns (Some (snd r))).

(** Delivery of one signal of the current worker to the slot connected to
    it. *)
Definition deliver (s : signal) (self : Gui) : Gui * slot_outcome :=
  match s, connected <$> worker self with
  | _, None => (self, Returns None)
  | progress text, Some _ => (update_log text self, Returns None)
  | finished obj, Some FetchSlots => on_fetch_finished obj self
  | error msg, Some FetchSlots => with_box (on_fetch_error msg self)
  | finished obj, Some DownloadSlots =>
      with_box (on_download_finished obj self)
  | error msg, Some DownloadSlots =>
      with_box (on_download_error msg self)
  end.

End YtdlpGui.

(** ** The specification's vocabulary

    Definitions that follow the words of the specification, not the code;
    the theorems below compare the two. *)

Module Spec.
Import Py Metadata Worker Qt.

(** The terminal outcomes of a command execution (all but [Running]). *)
Inductive outcome :=
  | SucceededWithData (value : info_dict)
  | SucceededEmpty
  | Failed (message : pystr).

(** The outcome a signal delivers; a line of output delivers none. *)
Definition outcome_of (s : signal) : option outcome :=
  match s with
  | progress _ => None
  | finished (Some value) => Some (SucceededWithData value)
  | finished None => Some SucceededEmpty
  | error message => Some (Failed message)
  end.

Definition outcomes (signals : list signal) : list outcome :=
  omap outcome_of signals.

(** The substring that starts at the first occurrence of [c], if any. *)
Fixpoint from_first (c : N) (output : pystr) : option pystr :=
  match output with
  | [] => None
  | x :: rest => if (x =? c)%N then Some output else from_first c rest
  end.

(** Section 4.1, "on process termination", its last line included: an
    exception of the parser that is not a parse failure is an unexpected
    failure, with the text of the exception as description. *)
Definition classify `{Platform} (expectJsonResult : bool)
    (accumulatedOutput : pystr) (status : Z) : outcome :=
  if expectJsonResult then
    match from_first brace accumulatedOutput with
    | None => Failed (str "Could not find video information in the output.")
    | Some text =>
        match json_loads text with
        | Parsed value => SucceededWithData value
        | Invalid _ =>
            Failed (str
              "Failed to parse video information from yt-dlp's output.")
        | Failure description =>
            Failed (str "An unexpected error occurred: " ++ description)
        end
    end
  else if status =? 0 then SucceededEmpty
  else Failed (str "Process finished with error code " ++ str_of_int status).

(** Section 3, derived classification of a format entry. *)
Definition present_and_not_none (codec : option pystr) : bool :=
  match codec with
  | Some c => negb (Py.eqb c (str "none"))
  | None => false
  end.

Definition video_capable (f : format_dict) : bool :=
  present_and_not_none (vcodec f) && bool_decide (is_Some (height f)).

Definition audio_capable (f : format_dict) : bool :=
  present_and_not_none (acodec f).

(** Section 4.2, the gate of a download request on the format selection: a
    video format is selected and, when it is not merged, an audio format
    (with a non-empty id) is selected too. *)
Definition selection_passes (video : option YtdlpGui.video_data)
    (audio : option pystr) : Prop :=
  exists data,
    video = Some data
    /\ (YtdlpGui.merged data = true \/ exists a, audio = Some a /\ a <> []).

(** Section 4.2, the clip-download command shape. *)
Definition download_command (formatSpec start_ end_ outputTemplate url : pystr)
    : list pystr :=
  [str "yt-dlp"; str "-f"; formatSpec; str "--download-sections";
   str "*" ++ start_ ++ str "-" ++ end_; str "--force-keyframes-at-cuts";
   str "--merge-output-format"; str "mkv"; str "-o"; outputTemplate; url].

(** Section 4.2, the output template as a plain concatenation. *)
Definition template (outputDir basename : pystr) : pystr :=
  outputDir ++ str "/" ++ basename ++ str ".%(ext)s".

(** The signal that delivers an outcome. *)
Definition signal_of (o : outcome) : signal :=
  match o with
  | SucceededWithData value => finished (Some value)
  | SucceededEmpty => finished None
  | Failed message => error message
  end.

(** [desc key a b]: [a] may stand before [b] in descending order of [key]. *)
Definition desc {A} (key : A -> Z) (a b : A) : Prop := key b <= key a.

(** The metadata and the format selections the window stores: the parsed
    object, and the entries and current index of the two boxes. *)
Definition stored (self : YtdlpGui.Gui) :=
  (YtdlpGui.video_info self,
   (items (YtdlpGui.video_quality_combo self),
    currentIndex (YtdlpGui.video_quality_combo self)),
   (items (YtdlpGui.audio_quality_combo self),
    currentIndex (YtdlpGui.audio_quality_combo self))).

End Spec.

(** The claims of the specification that the code does not meet, as the
    specification words them. *)
Module Stated.
Import Py Metadata Worker Qt YtdlpGui Spec.

(** "When a JSON result is expected: no '{' gives Failed("Could not
    find..."); if the substring from that character fails to parse as JSON
    the outcome is Failed("Failed to parse..."); if it parses the outcome
    is SucceededWithData.  Otherwise exit status 0 yields SucceededEmpty
    and any other status Failed("Process finished with error code
    <status>")." *)
Definition classify `{Platform} (expectJsonResult : bool)
    (accumulatedOutput : pystr) (status : Z) : outcome :=
  if expectJsonResult then
    match from_first brace accumulatedOutput with
    | None => Failed (str "Could not find video information in the output.")
    | Some text =>
        match json_loads text with
        | Parsed value => SucceededWithData value
        | _ =>
            Failed (str
              "Failed to parse video information from yt-dlp's output.")
        end
    end
  else if status =? 0 then SucceededEmpty
  else Failed (str "Process finished with error code " ++ str_of_int status).

(** "For every execution the terminal outcome is classified exactly as"
    above. *)
Definition classification `{Platform} (command : list pystr) : Prop :=
  forall process return_code,
    Popen command = Return process ->
    wait process = Return return_code ->
    outcomes (fst (run command))
    = [classify (is_json_dump command) (concat (stdout process))
         return_code].

(** "A failed or successful download preserves the current VideoMetadata
    and selection state", the selection state being the selected video and
    audio formats and whether the audio selection is enabled. *)
Definition selection_state (self : Gui) :=
  (currentData (video_quality_combo self),
   currentData (audio_quality_combo self),
   isEnabled (audio_quality_combo self)).

Definition download_preserves_selection (self : Gui) : Prop :=
  forall obj error_message,
    let finished := fst (on_download_finished obj self) in
    let failed := fst (on_download_error error_message self) in
    (video_info finished = video_info self
     /\ selection_state finished = selection_state self)
    /\ (video_info failed = video_info self
        /\ selection_state failed = selection_state self).

(** "The derived video list contains exactly the video-capable entries,
    sorted by descending height; the derived audio list contains exactly
    the entries that are audio-capable and not video-capable." *)
Definition selection_lists (d : info_dict) (self : Gui) : Prop :=
  let formats := default [] (formats d) in
  let self' := fst (on_fetch_finished (Some d) self) in
  exists videos audios,
    items (video_quality_combo self') = map video_item videos
    /\ items (audio_quality_combo self') = map audio_item audios
    /\ videos ≡ₚ filter (fun f => video_capable f) formats
    /\ StronglySorted (desc height_key) videos
    /\ audios
       ≡ₚ filter (fun f => audio_capable f && negb (video_capable f)) formats.

(** "A request with start = end or start > end is rejected with a time
    error before any process launches; state unchanged." *)
Definition time_rejection (self : Gui) : Prop :=
  time (start_time_edit self) >= time (end_time_edit self) ->
  download_clip self
  = (self, Rejected (warning (str "Time Error")
                       (str "Start time must be before end time."))).

(** "outputTemplate = <outputDir>/<basename>.%(ext)s where basename is the
    user-supplied filename if non-empty after trimming, else the fetched
    title with the forbidden characters stripped." *)
Definition output_template (self : Gui) : Prop :=
  forall self' cmd,
    download_clip self = (self', Started cmd) ->
    exists basename,
      cmd !! 9%nat = Some (template (output_path_input self) basename)
      /\ (strip (filename_input self) <> [] ->
          basename = strip (filename_input self))
      /\ (strip (filename_input self) = [] ->
          exists info t,
            video_info self = Some info /\ title info = Some t
            /\ basename = filter (fun c => c ∉ forbidden) t).

End Stated.

(** ** Sample sessions *)

Module Examples.
Import Py Metadata Worker Qt YtdlpGui Spec.

Definition format (id vcodec acodec : string) (height : option Z)
    : format_dict :=
  {| format_id := Some (str id); ext := Some (str "mp4");
     vcodec := Some (str vcodec); acodec := Some (str acodec);
     height := height;
     fps := Some (Some (Int 30));
     abr := Some (Some (Float (str "129.5"))) |}.

(** A 720p format with its own audio, an audio-only format, a 1080p format
    without audio, and a stream of unknown height. *)
Definition f22 := format "22" "avc1" "mp4a" (Some 720).
Definition f140 := format "140" "none" "mp4a" None.
Definition f137 := format "137" "avc1" "none" (Some 1080).
Definition hls := format "hls-0" "avc1" "mp4a" None.

Definition metadata (url : string) (formats : list format_dict) : info_dict :=
  {| title := Some (str "Demo"); duration := Some 125;
     webpage_url := Some (str url); formats := Some formats;
     other_keys := true |}.

Definition demo := metadata "https://example.com/watch" [f22; f140; f137].

Definition home := str "/home/user".

(** The window after the metadata [d] was fetched. *)
Definition fetched (d : info_dict) : Gui :=
  fst (on_fetch_finished (Some d) (init home)).

(** ... and with the clip range and the file name set by the user. *)
Definition clip (start_ end_ : Z) (filename : string) (self : Gui) : Gui :=
  set_filename_input (str filename)
    (set_end_time_edit (setTime end_ (end_time_edit self))
       (set_start_time_edit (setTime start_ (start_time_edit self)) self)).

(** The 1080p entry (index 0) with the audio entry, 5 s to 10 s. *)
Definition ready_1080 := clip 5 10 "" (fetched demo).

(** The 720p entry (index 1). *)
Definition ready_720 := select_video 1 ready_1080.

(** A file name that is an absolute path. *)
Definition absolute_name := clip 5 10 "/tmp/clip" (fetched demo).

(** Metadata with no formats: nothing to select, and an empty range. *)
Definition nothing_to_select :=
  fetched {| title := Some (str "Demo"); duration := None;
             webpage_url := Some (str "https://example.com/watch");
             formats := None; other_keys := false |}.

(** Metadata whose page address is the string "-j". *)
Definition dash_j := clip 5 10 "" (fetched (metadata "-j" [f22])).

(** yt-dlp prints a warning, then the JSON object, and exits with 1. *)
Definition noisy_fetch : Platform :=
  {| Popen := fun _ =>
       Return {| stdout := [str "WARNING: unable to extract" ++ nl;
                            str "{...}" ++ nl];
                 wait := Return 1 |};
     json_loads := fun _ => Parsed demo |}.

(** yt-dlp is not installed. *)
Definition not_installed : Platform :=
  {| Popen := fun _ =>
       Raise (FileNotFoundError
                (str "[Errno 2] No such file or directory: 'yt-dlp'"));
     json_loads := fun _ => Invalid [] |}.

(** yt-dlp prints an object nested deeper than the decoder's recursion
    limit. *)
Definition deep_nesting : Platform :=
  {| Popen := fun _ =>
       Return {| stdout := [str "{[[[[...]]]]}" ++ nl]; wait := Return 0 |};
     json_loads := fun _ =>
       Failure (str
         "maximum recursion depth exceeded while decoding a JSON object from a unicode string") |}.

(** Metadata with a duration of 2^31 seconds. *)
Definition endless : info_dict :=
  {| title := Some (str "Live"); duration := Some 2147483648;
     webpage_url := Some (str "https://example.com/live");
     formats := Some [f22]; other_keys := true |}.

(** A download that prints its progress and exits with 0. *)
Definition quiet_download : Platform :=
  {| Popen := fun _ =>
       Return {| stdout := [str "[download] 100%" ++ nl]; wait := Return 0 |};
     json_loads := fun _ => Invalid [] |}.

End Examples.

(** ** Start-up: the dependency check and the main block *)

Module Startup.
Import Py Metadata Worker Qt YtdlpGui.

(** [shutil.which(name)] finds the executable ([true]) or returns [None]. *)
Class SearchPath := {
  which : pystr -> bool
}.

Definition check_dependencies `{SearchPath} : list pystr :=
  let missing := [] in
  let missing :=
    if negb (which (str "yt-dlp")) then missing ++ [str "yt-dlp"]
    else missing in
  let missing :=
    if negb (which (str "ffmpeg")) then missing ++ [str "ffmpeg"]
    else missing in
  missing.

(** The message box of [show_dependency_error_dialog], a critical one with
    the single button Ok: its title, its text and its detailed text. *)
Record DependencyDialog := {
  windowTitle : pystr;
  dialogText : pystr;
  detailedText : pystr
}.

(** The back-quoted name of a dependency. *)
Definition quoted (dep : pystr) : pystr := str "`" ++ dep ++ str "`".

Definition show_dependency_error_dialog (missing_deps : list pystr)
    : DependencyDialog :=
  let missing_str := join (str " and ") (map quoted missing_deps) in
  let instructions :=
    str "Please install the missing components by running the following commands in your terminal, then restart the application:"
    ++ nl ++ nl in
  let instructions :=
    if elem (str "yt-dlp") missing_deps then
      instructions
      ++ str "# To install yt-dlp (recommended):" ++ nl
      ++ str "sudo curl -L https://github.com/yt-dlp/yt-dlp/releases/latest/download/yt-dlp -o /usr/local/bin/yt-dlp"
      ++ nl
      ++ str "sudo chmod a+rx /usr/local/bin/yt-dlp" ++ nl ++ nl
      ++ str "# Or to update an existing installation:" ++ nl
      ++ str "sudo yt-dlp -U" ++ nl ++ nl
    else instructions in
  let instructions :=
    if elem (str "ffmpeg") missing_deps then
      instructions
      ++ str "# To install ffmpeg (for Debian/Ubuntu/Mint):" ++ nl
      ++ str "sudo apt update && sudo apt install ffmpeg" ++ nl
    else instructions in
  {| windowTitle := str "Dependencies Missing";
     dialogText :=
       str "This application requires " ++ missing_str
       ++ str " to function.";
     detailedText := instructions |}.

(** How the main block goes on: the dialog and [sys.exit(1)], or the window
    shown and the event loop entered. *)
Inductive startup :=
  | Exits (dialog : DependencyDialog) (status : Z)
  | Shows (window : Gui).

Definition main `{SearchPath} (home : pystr) : startup :=
  let missing_dependencies := check_dependencies in
  match missing_dependencies with
  | _ :: _ => Exits (show_dependency_error_dialog missing_dependencies) 1
  | [] => Shows (init home)
  end.

End Startup.

(** ** The event loop

    The window, the signals of its worker that are queued for delivery, and
    what a user action or a delivery does.  A disabled control ignores the
    user; the time fields, the file name field and the "Change Location"
    button are never disabled by the program. *)

Module Session.
Import Py Metadata Worker Qt YtdlpGui.

Record state := {
  window : Gui;
  queued : list signal
}.

Inductive event :=
  | TypeUrl (url : pystr)
  | ClickFetch
  | PickVideo (index : Z)
  | PickAudio (index : Z)
  | EditStart (t : QTime)
  | EditEnd (t : QTime)
  | TypeFilename (filename : pystr)
  | ChooseFolder (directory : pystr)
  | ClickDownload
  | Deliver.

(** [self.worker.start()]: the signals [run] emits join the queue. *)
Definition start_worker `{Platform} (self : Gui) (queue : list signal)
    : state :=
  {| window := self;
     queued :=
       queue ++ match worker self with
                | Some thread => fst (run (command thread))
                | None => []
                end |}.

Definition step `{Platform} (e : event) (s : state) : state :=
  let self := window s in
  let keep self' := {| window := self'; queued := queued s |} in
  match e with
  | TypeUrl url =>
      if lineEnabled (url_input self) then
        keep (set_url_input {| text := url; lineEnabled := true |} self)
      else s
  | ClickFetch =>
      if fetch_button self then
        match fetch_video_info self with
        | (self', None) => start_worker self' (queued s)
        | (self', Some _) => keep self'
        end
      else s
  | PickVideo index =>
      if isEnabled (video_quality_combo self) then
        keep (select_video index self)
      else s
  | PickAudio index =>
      if isEnabled (audio_quality_combo self) then
        keep (select_audio index self)
      else s
  | EditStart t =>
      keep (set_start_time_edit (setTime t (start_time_edit self)) self)
  | EditEnd t =>
      keep (set_end_time_edit (setTime t (end_time_edit self)) self)
  | TypeFilename filename => keep (set_filename_input filename self)
  | ChooseFolder directory => keep (select_output_location directory self)
  | ClickDownload =>
      if download_button self then
        match download_clip self with
        | (self', Started _) => start_worker self' (queued s)
        | (self', _) => keep self'
        end
      else s
  | Deliver =>
      match queued s with
      | [] => s
      | sig :: rest =>
          {| window := fst (deliver sig self); queued := rest |}
      end
  end.

(** The application started in the home directory [home], and after a
    sequence of events. *)
Definition start (home : pystr) : state :=
  {| window := init home; queued := [] |}.

Definition run_events `{Platform} (events : list event) (s : state) : state :=
  fold_left (fun s e => step e s) events s.

(** Delivery of a list of signals, one after the other. *)
Definition deliver_all (signals : list signal) (self : Gui) : Gui :=
  fold_left (fun self sig => fst (deliver sig self)) signals self.

(** A signal that ends an execution. *)
Definition terminal (sig : signal) : bool :=
  match sig with
  | progress _ => false
  | _ => true
  end.

(** The queue holds at most the rest of one execution: line signals, then
    one terminal signal. *)
Definition one_execution (queue : list signal) : Prop :=
  queue = []
  \/ exists lines sig,
       queue = map progress lines ++ [sig] /\ terminal sig = true.

(** A time field keeps its time in a range within the day that starts at
    midnight. *)
Definition time_edit_ok (e : QTimeEdit) : Prop :=
  minimumTime e = 0 /\ 0 <= time e <= maximumTime e
  /\ maximumTime e <= 86399.

(** The duration the time fields are limited to. *)
Definition duration_time (info : info_dict) : QTime :=
  default 0 (duration info) mod 86400.

(** What holds of the application while no slot has raised. *)
Record invariant (s : state) : Prop := {
  inv_queue : one_execution (queued s);
  inv_busy :
    queued s <> [] ->
    fetch_button (window s) = false /\ download_button (window s) = false;
  inv_info :
    video_info (window s) = None ->
    items (video_quality_combo (window s)) = []
    /\ items (audio_quality_combo (window s)) = [];
  inv_start : time_edit_ok (start_time_edit (window s));
  inv_end : time_edit_ok (end_time_edit (window s));
  inv_range :
    forall info,
      video_info (window s) = Some info ->
      maximumTime (start_time_edit (window s)) = duration_time info
      /\ maximumTime (end_time_edit (window s)) = duration_time info
}.

(** The application after the OverflowError left [on_fetch_finished]: the
    metadata is stored, nothing is queued and both buttons are disabled,
    and stay so. *)
Definition stuck (s : state) : Prop :=
  queued s = []
  /\ fetch_button (window s) = false
  /\ download_button (window s) = false
  /\ is_Some (video_info (window s)).

(** How the controls stand to each other and to the stored metadata. *)
Record controls_ok (self : Gui) : Prop := {
  ok_url : lineEnabled (url_input self) = fetch_button self;
  ok_video : isEnabled (video_quality_combo self) = download_button self;
  ok_download :
    download_button self = true ->
    fetch_button self = true /\ is_Some (video_info self);
  ok_worker :
    forall c,
      worker self = Some {| command := c; connected := DownloadSlots |} ->
      is_Some (video_info self)
}.

End Session.

(** ** Closed forms

    What the methods compute, written without loops, signals and early
    returns; the theorems relate the methods to these. *)

Module Effects.
Import Py Metadata Worker Qt YtdlpGui Session.

(** The message of the [error] signal for an exception that reaches the
    handlers of [run], for a command whose first element is [executable]. *)
Definition failure_message (executable : pystr) (e : exn) : pystr :=
  match e with
  | FileNotFoundError _ =>
      str "Error: Command '" ++ executable
      ++ str "' not found. Is it in your PATH?"
  | _ => str "An unexpected error occurred: " ++ exn_str e
  end.

(** A box after the entries [l] were added one by one. *)
Definition addItems {A} (l : list (pystr * A)) (c : QComboBox A)
    : QComboBox A :=
  {| items := items c ++ l;
     currentIndex :=
       match items c, l with
       | [], _ :: _ => 0
       | _, _ => currentIndex c
       end;
     isEnabled := isEnabled c |}.

(** A box filled with the entries [l], the first one current. *)
Definition filled {A} (l : list (pystr * A)) (enabled : bool) : QComboBox A :=
  {| items := l;
     currentIndex := match l with [] => -1 | _ => 0 end;
     isEnabled := enabled |}.

(** The window after [on_fetch_finished] received the non-empty object
    [d]. *)
Definition populated (d : info_dict) (self : Gui) : Gui :=
  let formats := sorted_reverse height_key (default [] (formats d)) in
  let videos := map video_item (filter (fun f => video_test f) formats) in
  let audios := map audio_item (filter (fun f => audio_test f) formats) in
  {| video_info := Some d;
     url_input := {| text := text (url_input self); lineEnabled := true |};
     fetch_button := true;
     title_label := str "Video Title: " ++ default (str "N/A") (title d);
     duration_label := str "Duration: " ++ toString (duration_time d);
     video_quality_combo := filled videos true;
     audio_quality_combo :=
       filled audios
         match videos with
         | [] => true
         | (_, data) :: _ => negb (merged data)
         end;
     start_time_edit :=
       setTime 0 (setMaximumTime (duration_time d) (start_time_edit self));
     end_time_edit :=
       setMaximumTime (duration_time d)
         (setTime (duration_time d) (end_time_edit self));
     output_path_input := output_path_input self;
     filename_input := filename_input self;
     download_button := true;
     log_output :=
       log_output self
       ++ [nl ++ str "Successfully parsed video information!"];
     worker := worker self |}.

(** The window after [on_fetch_finished] received the non-empty object
    [d] and the OverflowError left it. *)
Definition overflowed (d : info_dict) (self : Gui) : Gui :=
  {| video_info := Some d;
     url_input := url_input self;
     fetch_button := fetch_button self;
     title_label := str "Video Title: " ++ default (str "N/A") (title d);
     duration_label := duration_label self;
     video_quality_combo := video_quality_combo self;
     audio_quality_combo := audio_quality_combo self;
     start_time_edit := start_time_edit self;
     end_time_edit := end_time_edit self;
     output_path_input := output_path_input self;
     filename_input := filename_input self;
     download_button := download_button self;
     log_output :=
       log_output self
       ++ [nl ++ str "Successfully parsed video information!"];
     worker := worker self |}.

(** The window with its controls set as [update_ui_state] sets them. *)
Definition with_controls (can_fetch can_download : bool) (self : Gui) : Gui :=
  {| video_info := video_info self;
     url_input :=
       {| text := text (url_input self); lineEnabled := can_fetch |};
     fetch_button := can_fetch;
     title_label := title_label self;
     duration_label := duration_label self;
     video_quality_combo := setEnabled can_download (video_quality_combo self);
     audio_quality_combo := setEnabled can_download (audio_quality_combo self);
     start_time_edit := start_time_edit self;
     end_time_edit := end_time_edit self;
     output_path_input := output_path_input self;
     filename_input := filename_input self;
     download_button := can_download;
     log_output := log_output self;
     worker := worker self |}.

(** The four lines [download_clip] logs for a command. *)
Definition download_log (command : list pystr) : list pystr :=
  [nl ++ repeat 61%N 50; str "Starting download with command:";
   join (str " ") (map quote_arg command); repeat 61%N 50 ++ nl].

(** [needle] is at the start of [s], and somewhere in [s]. *)
Fixpoint is_prefix (needle s : pystr) : bool :=
  match needle, s with
  | [], _ => true
  | x :: needle', y :: s' => (x =? y)%N && is_prefix needle' s'
  | _ :: _, [] => false
  end.

Fixpoint occurs (needle s : pystr) : bool :=
  is_prefix needle s
  || match s with
     | [] => false
     | _ :: s' => occurs needle s'
     end.

(** What the invariant of the event loop reads of the window: the two
    buttons, and the metadata, the entries and the time fields. *)
Definition buttons (self : Gui) := (fetch_button self, download_button self).

Definition view (self : Gui) :=
  (video_info self,
   items (video_quality_combo self), items (audio_quality_combo self),
   start_time_edit self, end_time_edit self).

End Effects.

(** ** More sample sessions *)

Module Samples.
Import Py Metadata Worker Qt YtdlpGui Startup Session Examples.

(** Popen fails for lack of memory. *)
Definition no_memory : Platform :=
  {| Popen := fun _ =>
       Raise (OtherError (str "[Errno 12] Cannot allocate memory"));
     json_loads := fun _ => Invalid [] |}.

(** The pipe breaks after one line of output. *)
Definition broken_pipe : Platform :=
  {| Popen := fun _ =>
       Return {| stdout := [str "[download]  10%" ++ nl];
                 wait := Raise (OtherError (str "[Errno 5] Input/output error")) |};
     json_loads := fun _ => Invalid [] |}.

(** A site that answers a fetch with a warning and the sample metadata,
    and a download with its progress and exit status 1. *)
Definition site : Platform :=
  {| Popen := fun command =>
       if is_json_dump command then
         Return {| stdout := [str "WARNING: slow" ++ nl; str "  {...}" ++ nl];
                   wait := Return 0 |}
       else
         Return {| stdout := [str "[download] 100%" ++ nl];
                   wait := Return 1 |};
     json_loads := fun _ => Parsed demo |}.

(** The window with a URL typed in, the fetch done, and a clip range
    chosen, as a sequence of events. *)
Definition typed : Gui :=
  set_url_input
    {| text := str " https://example.com/watch "; lineEnabled := true |}
    (init home).

Definition watch : list event :=
  [TypeUrl (str "https://example.com/watch"); ClickFetch;
   Deliver; Deliver; Deliver; EditStart 5; EditEnd 10].

(** ffmpeg is not installed. *)
Definition no_ffmpeg : SearchPath :=
  {| which := fun name => Py.eqb name (str "yt-dlp") |}.

End Samples.

(** * Theorems *)

Import Py Metadata Worker Qt YtdlpGui Spec.

(** ** Strings *)

Lemma find_lower_bound c s : -1 <= find c s.
Proof.
  induction s as [|x s IH]; simpl; [lia|].
  destruct (x =? c)%N; [lia|].
  destruct (find c s =? -1) eqn:E; lia.
Qed.

Lemma find_none c s : find c s = -1 <-> from_first c s = None.
Proof.
  induction s as [|x s IH]; simpl; [done|].
  destruct (x =? c)%N; [split; [lia|done]|].
  pose proof (find_lower_bound c s).
  destruct (find c s =? -1) eqn:E.
  - apply Z.eqb_eq in E. tauto.
  - apply Z.eqb_neq in E. rewrite <- IH. lia.
Qed.

Lemma find_slice c s :
  find c s <> -1 -> from_first c s = Some (slice_from (find c s) s).
Proof.
  induction s as [|x s IH]; simpl; [done|].
  destruct (x =? c)%N; [done|].
  pose proof (find_lower_bound c s).
  destruct (find c s =? -1) eqn:E; [done|].
  apply Z.eqb_neq in E. intros _. rewrite (IH E).
  unfold slice_from.
  replace (Z.to_nat (find c s + 1)) with (S (Z.to_nat (find c s))) by lia.
  done.
Qed.

(** What [from_first] returns is the text after a prefix free of [c]. *)
Lemma from_first_Some c s t :
  from_first c s = Some t <->
  exists pre rest, s = pre ++ c :: rest /\ (c ∉ pre) /\ t = c :: rest.
Proof.
  revert t. induction s as [|x s IH]; intros t; simpl.
  - split; [done|]. intros (pre & rest & E & _). by destruct pre.
  - destruct (x =? c)%N eqn:E.
    + apply N.eqb_eq in E. subst x. split.
      * intros [= <-]. exists [], s. split_and!; [done|apply not_elem_of_nil|done].
      * intros (pre & rest & Es & Hpre & ->). destruct pre as [|y pre].
        -- simpl in Es. by rewrite Es.
        -- simplify_eq/=. exfalso. apply Hpre. left.
    + apply N.eqb_neq in E. rewrite IH. split.
      * intros (pre & rest & -> & Hpre & ->). exists (x :: pre), rest.
        split_and!; [done| |done]. rewrite not_elem_of_cons. done.
      * intros (pre & rest & Es & Hpre & ->). destruct pre as [|y pre].
        -- simplify_eq/=.
        -- simplify_eq/=. exists pre, rest.
           apply not_elem_of_cons in Hpre. by destruct Hpre.
Qed.

Lemma from_first_None c s : from_first c s = None <-> c ∉ s.
Proof.
  induction s as [|x s IH]; simpl.
  - split; [intros _; apply not_elem_of_nil|done].
  - rewrite not_elem_of_cons. destruct (x =? c)%N eqn:E.
    + apply N.eqb_eq in E. split; [done|]. intros [Hne _]. by destruct Hne.
    + apply N.eqb_neq in E. rewrite IH. split; [by split|by intros [_ ?]].
Qed.

(** ** The command runner *)

Section CommandRunner.
Context `{Platform}.

Lemma read_lines_spec lines full_output :
  read_lines lines full_output
  = (map (fun line => progress (strip line)) lines,
     Return (full_output ++ concat lines)).
Proof.
  revert full_output. induction lines as [|line lines IH]; intros acc; simpl.
  - unfold ret. by rewrite app_nil_r.
  - rewrite IH. by rewrite <- app_assoc.
Qed.

Lemma outcomes_progress lines :
  outcomes (map (fun line => progress (strip line)) lines) = [].
Proof. by induction lines. Qed.

Lemma outcomes_app l1 l2 : outcomes (l1 ++ l2) = outcomes l1 ++ outcomes l2.
Proof. apply omap_app. Qed.

Lemma outcome_of_signal_of o : outcome_of (signal_of o) = Some o.
Proof. by destruct o. Qed.

(** A process that was started and waited for: [run] emits one line
    signal per line read, then the signal of the classified outcome. *)
Lemma run_exited command process return_code :
  Popen command = Return process ->
  wait process = Return return_code ->
  run command
  = (map (fun line => progress (strip line)) (stdout process)
     ++ [signal_of (classify (is_json_dump command)
                      (concat (stdout process)) return_code)],
     Return tt).
Proof.
  intros HP HW. unfold run, classify.
  rewrite HP. unfold lift, bind at 1. simpl.
  rewrite read_lines_spec, HW. simpl.
  set (full_output := concat (stdout process)).
  destruct (is_json_dump command).
  - destruct (find brace full_output =? -1) eqn:E; simpl.
    + apply Z.eqb_eq, find_none in E. by rewrite E.
    + apply Z.eqb_neq in E. rewrite (find_slice _ _ E).
      destruct (json_loads _); simpl; by rewrite ?app_nil_r.
  - by destruct (return_code =? 0).
Qed.

Lemma elem_spec x (command : list pystr) : elem x command = true <-> x ∈ command.
Proof.
  unfold elem. rewrite existsb_exists. setoid_rewrite <- list_elem_of_In.
  unfold Py.eqb. split.
  - intros (y & Hy & E). apply bool_decide_eq_true in E. by subst.
  - intros Hx. exists x. split; [done|]. by apply bool_decide_eq_true.
Qed.

Lemma is_json_dump_spec (command : list pystr) :
  is_json_dump command = true
  <-> str "-j" ∈ command \/ str "--dump-json" ∈ command.
Proof.
  unfold is_json_dump. by rewrite orb_true_iff, !elem_spec.
Qed.

(** C1, as amended: when the process has run to its end, the terminal
    outcome of the command runner is classified as follows.  If a JSON
    result is expected (the command has "-j" or "--dump-json"): no '{' in
    the accumulated output gives Failed with the "could not find" message;
    a text after the first '{' on which json.loads raises JSONDecodeError
    gives Failed with the "failed to parse" message; a text on which it
    raises any other exception gives Failed with "An unexpected error
    occurred: " and the text of the exception; a text it parses gives
    SucceededWithData of the parsed value, whatever the exit status.
    Otherwise exit status 0 gives SucceededEmpty and any other status gives
    Failed with "Process finished with error code <status>".  Exactly one
    outcome is delivered, after the line signals. *)
Theorem run_classifies_outcome command process return_code :
  Popen command = Return process ->
  wait process = Return return_code ->
  let full_output := concat (stdout process) in
  let expected := is_json_dump command in
  let delivered := outcomes (fst (run command)) in
  delivered = [classify expected full_output return_code]
  /\ snd (run command) = Return tt
  /\ (expected = true -> brace ∉ full_output ->
      delivered
      = [Failed (str "Could not find video information in the output.")])
  /\ (forall pre rest msg,
        expected = true -> full_output = pre ++ brace :: rest ->
        brace ∉ pre -> json_loads (brace :: rest) = Invalid msg ->
        delivered
        = [Failed (str
             "Failed to parse video information from yt-dlp's output.")])
  /\ (forall pre rest msg,
        expected = true -> full_output = pre ++ brace :: rest ->
        brace ∉ pre -> json_loads (brace :: rest) = Failure msg ->
        delivered
        = [Failed (str "An unexpected error occurred: " ++ msg)])
  /\ (forall pre rest value,
        expected = true -> full_output = pre ++ brace :: rest ->
        brace ∉ pre -> json_loads (brace :: rest) = Parsed value ->
        delivered = [SucceededWithData value])
  /\ (expected = false -> return_code = 0 -> delivered = [SucceededEmpty])
  /\ (expected = false -> return_code <> 0 ->
      delivered
      = [Failed (str "Process finished with error code "
                 ++ str_of_int return_code)]).
Proof.
  intros HP HW full_output expected delivered.
  assert (delivered = [classify expected full_output return_code]) as Hd.
  { unfold delivered. rewrite (run_exited _ _ _ HP HW). simpl.
    rewrite outcomes_app, outcomes_progress. unfold outcomes. simpl.
    by rewrite outcome_of_signal_of. }
  split; [done|]. split; [by rewrite (run_exited _ _ _ HP HW)|].
  rewrite Hd. unfold classify. split_and!.
  - intros -> Hno. apply from_first_None in Hno. by rewrite Hno.
  - intros pre rest msg -> Hout Hpre Hl.
    assert (from_first brace full_output = Some (brace :: rest)) as ->.
    { apply from_first_Some. by exists pre, rest. }
    by rewrite Hl.
  - intros pre rest msg -> Hout Hpre Hl.
    assert (from_first brace full_output = Some (brace :: rest)) as ->.
    { apply from_first_Some. by exists pre, rest. }
    by rewrite Hl.
  - intros pre rest value -> Hout Hpre Hl.
    assert (from_first brace full_output = Some (brace :: rest)) as ->.
    { apply from_first_Some. by exists pre, rest. }
    by rewrite Hl.
  - intros -> ->. done.
  - intros -> Hne. apply Z.eqb_neq in Hne. by rewrite Hne.
Qed.

(** C5: when the executable named by the first element of the argument
    list cannot be located (Popen raises FileNotFoundError), the runner
    delivers exactly one outcome, Failed, and its message contains that
    element. *)
Theorem run_missing_executable executable arguments msg :
  Popen (executable :: arguments) = Raise (FileNotFoundError msg) ->
  exists message,
    run (executable :: arguments) = ([error message], Return tt)
    /\ outcomes (fst (run (executable :: arguments))) = [Failed message]
    /\ substring executable message.
Proof.
  intros HP.
  exists (str "Error: Command '" ++ executable
          ++ str "' not found. Is it in your PATH?").
  assert (run (executable :: arguments)
          = ([error (str "Error: Command '" ++ executable
                     ++ str "' not found. Is it in your PATH?")],
             Return tt)) as Hrun.
  { unfold run. rewrite HP. reflexivity. }
  rewrite Hrun. split_and!; [done|done|].
  by exists (str "Error: Command '"), (str "' not found. Is it in your PATH?").
Qed.

End CommandRunner.

(** ** Sorting *)

Section Sorting.
Context {A : Type} (key : A -> Z).

Lemma insert_desc_perm x l : insert_desc key x l ≡ₚ x :: l.
Proof.
  induction l as [|y l IH]; simpl; [done|].
  destruct (key y <=? key x); [done|].
  rewrite IH. apply Permutation_swap.
Qed.

Lemma sorted_reverse_perm l : sorted_reverse key l ≡ₚ l.
Proof.
  induction l as [|x l IH]; simpl; [done|].
  by rewrite insert_desc_perm, IH.
Qed.

Lemma insert_desc_sorted x l :
  StronglySorted (desc key) l -> StronglySorted (desc key) (insert_desc key x l).
Proof.
  induction 1 as [|y l Hl IH Hy]; simpl.
  - constructor; [constructor|constructor].
  - destruct (key y <=? key x) eqn:E.
    + apply Z.leb_le in E. constructor; [by constructor|].
      constructor; [done|].
      eapply Forall_impl; [exact Hy|]. unfold desc. intros z Hz. lia.
    + apply Z.leb_gt in E. constructor; [done|].
      rewrite insert_desc_perm. constructor; [|done]. unfold desc. lia.
Qed.

Lemma sorted_reverse_sorted l : StronglySorted (desc key) (sorted_reverse key l).
Proof.
  induction l as [|x l IH]; simpl; [constructor|].
  by apply insert_desc_sorted.
Qed.

(** Stability: the elements of one key keep the order they had. *)
Lemma insert_desc_stable k x l :
  filter (fun a => key a = k) (insert_desc key x l)
  = filter (fun a => key a = k) (x :: l).
Proof.
  induction l as [|y l IH]; simpl; [done|].
  destruct (key y <=? key x) eqn:E; [done|].
  apply Z.leb_gt in E. rewrite filter_cons, IH, !filter_cons.
  repeat case_decide; try done; lia.
Qed.

Lemma sorted_reverse_stable k l :
  filter (fun a => key a = k) (sorted_reverse key l)
  = filter (fun a => key a = k) l.
Proof.
  induction l as [|x l IH]; simpl; [done|].
  by rewrite insert_desc_stable, !filter_cons, IH.
Qed.

(** Selecting from a sorted list is sorting the selection. *)
Lemma filter_insert_desc (P : A -> Prop) `{!forall a, Decision (P a)} x l :
  StronglySorted (desc key) l ->
  filter P (insert_desc key x l)
  = if decide (P x) then insert_desc key x (filter P l) else filter P l.
Proof.
  induction 1 as [|y l Hl IH Hy]; simpl.
  - rewrite filter_cons. by case_decide.
  - destruct (key y <=? key x) eqn:E.
    + apply Z.leb_le in E. rewrite !filter_cons.
      destruct (decide (P x)); [|done].
      destruct (decide (P y)); simpl.
      * apply Z.leb_le in E. by rewrite E.
      * clear IH. induction l as [|z l IHl]; [done|].
        apply Forall_cons in Hy as [Hz Hy].
        apply StronglySorted_inv in Hl as [Hl Hzl].
        rewrite filter_cons. destruct (decide (P z)); simpl.
        -- unfold desc in Hz.
           assert ((key z <=? key x) = true) as -> by (apply Z.leb_le; lia).
           done.
        -- by apply IHl.
    + rewrite !filter_cons, IH.
      destruct (decide (P x)), (decide (P y)); simpl; by rewrite ?E.
Qed.

Lemma filter_sorted_reverse (P : A -> Prop) `{!forall a, Decision (P a)} l :
  filter P (sorted_reverse key l) = sorted_reverse key (filter P l).
Proof.
  induction l as [|x l IH]; simpl; [done|].
  rewrite filter_insert_desc by apply sorted_reverse_sorted.
  rewrite filter_cons, IH. by destruct (decide (P x)).
Qed.
End Sorting.

(** ** The session controller *)

Lemma stored_log_append text self : stored (log_append text self) = stored self.
Proof. done. Qed.

Lemma stored_update_ui_state initial fetching info_loaded downloading self :
  stored (update_ui_state initial fetching info_loaded downloading self)
  = stored self.
Proof. by destruct initial. Qed.

Lemma stored_on_video_quality_changed index self :
  stored (_on_video_quality_changed index self) = stored self.
Proof.
  unfold _on_video_quality_changed.
  destruct (index <? 0); [done|]. by destruct (itemData _ _).
Qed.

Lemma video_combo_on_video_quality_changed index self :
  video_quality_combo (_on_video_quality_changed index self)
  = video_quality_combo self.
Proof.
  unfold _on_video_quality_changed.
  destruct (index <? 0); [done|]. by destruct (itemData _ _).
Qed.

Lemma change_video_combo_video f self :
  video_quality_combo (change_video_combo f self)
  = f (video_quality_combo self).
Proof.
  unfold change_video_combo. simpl.
  destruct (_ =? _); [done|]. by rewrite video_combo_on_video_quality_changed.
Qed.

Lemma change_video_combo_audio_items f self :
  items (audio_quality_combo (change_video_combo f self))
  = items (audio_quality_combo self).
Proof.
  unfold change_video_combo. simpl. destruct (_ =? _); [done|].
  match goal with
  | |- context [_on_video_quality_changed ?i ?s] =>
      pose proof (stored_on_video_quality_changed i s) as Hs
  end.
  unfold stored in Hs. by injection Hs.
Qed.

(** The entries one turn of the loop appends to each box. *)
Lemma add_format_items self f :
  items (video_quality_combo (add_format self f))
  = items (video_quality_combo self)
    ++ (if video_test f then [video_item f] else [])
  /\ items (audio_quality_combo (add_format self f))
     = items (audio_quality_combo self)
       ++ (if audio_test f then [audio_item f] else []).
Proof.
  unfold add_format.
  destruct (video_test f), (audio_test f); simpl;
    rewrite ?change_video_combo_video, ?change_video_combo_audio_items;
    simpl; by rewrite ?app_nil_r.
Qed.

Lemma add_formats_items formats self :
  items (video_quality_combo (fold_left add_format formats self))
  = items (video_quality_combo self)
    ++ map video_item (filter (fun f => video_test f) formats)
  /\ items (audio_quality_combo (fold_left add_format formats self))
     = items (audio_quality_combo self)
       ++ map audio_item (filter (fun f => audio_test f) formats).
Proof.
  revert self. induction formats as [|f formats IH]; intros self; simpl.
  - by rewrite !app_nil_r.
  - destruct (IH (add_format self f)) as [-> ->].
    destruct (add_format_items self f) as [-> ->].
    rewrite !filter_cons.
    destruct (video_test f), (audio_test f); simpl;
      by rewrite <- ?app_assoc, ?app_nil_r.
Qed.

Lemma stored_items a b :
  stored a = stored b ->
  items (video_quality_combo a) = items (video_quality_combo b)
  /\ items (audio_quality_combo a) = items (audio_quality_combo b).
Proof. unfold stored. by intros [= _ -> _ -> _]. Qed.

Lemma video_combo_set_audio v self :
  video_quality_combo (set_audio_quality_combo v self)
  = video_quality_combo self.
Proof. done. Qed.

Lemma audio_combo_set_audio v self :
  audio_quality_combo (set_audio_quality_combo v self) = v.
Proof. done. Qed.

Lemma items_clear {A} (c : QComboBox A) : items (clear c) = [].
Proof. done. Qed.

(** A duration that fits is converted; one that does not raises before
    anything but the log, the metadata and the title label is written. *)
Lemma addSecs_fits s t :
  fits_int s = true -> addSecs s t = Some ((t + s) mod 86400).
Proof. intros Hs. unfold addSecs. by rewrite Hs. Qed.

Lemma addSecs_overflow s t : fits_int s = false -> addSecs s t = None.
Proof. intros Hs. unfold addSecs. by rewrite Hs. Qed.

Lemma fits_int_spec s : fits_int s = true <-> - 2 ^ 31 <= s < 2 ^ 31.
Proof. unfold fits_int. rewrite andb_true_iff, Z.leb_le, Z.ltb_lt. lia. Qed.

Lemma on_fetch_finished_overflow_stored d self :
  truthy d = true ->
  fits_int (default 0 (duration d)) = false ->
  snd (on_fetch_finished (Some d) self) = Overflows
  /\ items (video_quality_combo (fst (on_fetch_finished (Some d) self)))
     = items (video_quality_combo self)
  /\ items (audio_quality_combo (fst (on_fetch_finished (Some d) self)))
     = items (audio_quality_combo self).
Proof.
  intros Hd Hf. unfold on_fetch_finished.
  by rewrite Hd, (addSecs_overflow _ _ Hf).
Qed.

(** The entries of the two boxes after a fetch that returned a non-empty
    object: the sorted formats, filtered by the respective test. *)
Lemma on_fetch_finished_items d self :
  truthy d = true ->
  fits_int (default 0 (duration d)) = true ->
  let formats := sorted_reverse height_key (default [] (formats d)) in
  let self' := fst (on_fetch_finished (Some d) self) in
  items (video_quality_combo self')
  = map video_item (filter (fun f => video_test f) formats)
  /\ items (audio_quality_combo self')
     = map audio_item (filter (fun f => audio_test f) formats).
Proof.
  intros Hd Hf formats self'. subst self'. unfold on_fetch_finished.
  rewrite Hd, (addSecs_fits _ _ Hf). cbn [fst]. unfold show_video_info.
  match goal with
  | |- context [_on_video_quality_changed ?i ?s] =>
      destruct (stored_items _ _ (stored_on_video_quality_changed i s))
        as [-> ->]
  end.
  match goal with
  | |- context [update_ui_state _ _ _ _ ?s] =>
      destruct (stored_items _ _
        (stored_update_ui_state false false true false s)) as [-> ->]
  end.
  match goal with
  | |- context [fold_left add_format ?l ?s] =>
      destruct (add_formats_items l s) as [-> ->]
  end.
  rewrite video_combo_set_audio, audio_combo_set_audio,
    change_video_combo_video, !items_clear.
  split; reflexivity.
Qed.

Lemma video_test_spec f :
  video_test f = true
  <-> vcodec f <> Some (str "none")
      /\ exists h, height f = Some h /\ h <> 0.
Proof.
  unfold video_test, is_not_none, height_truthy.
  rewrite andb_true_iff, negb_true_iff, bool_decide_eq_false.
  destruct (height f) as [h|].
  - rewrite negb_true_iff, Z.eqb_neq. split.
    + intros [? ?]. split; [done|]. by exists h.
    + intros [? (h' & [= <-] & ?)]. done.
  - split; [by intros [_ ?]|]. by intros [_ (h & ? & _)].
Qed.

Lemma audio_test_spec f :
  audio_test f = true
  <-> acodec f <> Some (str "none") /\ vcodec f = Some (str "none").
Proof.
  unfold audio_test, is_not_none, is_none.
  by rewrite andb_true_iff, negb_true_iff, bool_decide_eq_false,
    bool_decide_eq_true.
Qed.

Lemma tests_exclusive f : video_test f && audio_test f = false.
Proof.
  unfold video_test, audio_test, is_not_none, is_none.
  by destruct (bool_decide (vcodec f = Some (str "none"))),
    (height_truthy (height f)), (bool_decide (acodec f = Some (str "none"))).
Qed.

(** C2, as amended: after a fetch that returned a non-empty object whose
    duration fits a C int (the handler raises for any other), the
    video list holds exactly the formats whose vcodec is not the string
    "none" (an absent vcodec passes) and whose height is present and not 0,
    and the audio list holds exactly the formats whose acodec is not the
    string "none" (an absent acodec passes) and whose vcodec is the string
    "none".  Both lists are in descending order of height, a missing height
    counting as 0, and formats of equal height keep the order of the
    metadata. *)
Theorem fetch_selection_lists d self :
  truthy d = true ->
  fits_int (default 0 (duration d)) = true ->
  let formats := default [] (formats d) in
  let self' := fst (on_fetch_finished (Some d) self) in
  let videos := sorted_reverse height_key (filter (fun f => video_test f) formats) in
  let audios := sorted_reverse height_key (filter (fun f => audio_test f) formats) in
  items (video_quality_combo self') = map video_item videos
  /\ items (audio_quality_combo self') = map audio_item audios
  /\ (forall f, f ∈ videos <->
        f ∈ formats /\ vcodec f <> Some (str "none")
        /\ exists h, height f = Some h /\ h <> 0)
  /\ (forall f, f ∈ audios <->
        f ∈ formats /\ acodec f <> Some (str "none")
        /\ vcodec f = Some (str "none"))
  /\ videos ≡ₚ filter (fun f => video_test f) formats
  /\ audios ≡ₚ filter (fun f => audio_test f) formats
  /\ StronglySorted (desc height_key) videos
  /\ StronglySorted (desc height_key) audios
  /\ (forall h,
        filter (fun f => height_key f = h) videos
        = filter (fun f => height_key f = h)
            (filter (fun f => video_test f) formats))
  /\ (forall h,
        filter (fun f => height_key f = h) audios
        = filter (fun f => height_key f = h)
            (filter (fun f => audio_test f) formats)).
Proof.
  intros Hd Hf formats self' videos audios.
  destruct (on_fetch_finished_items d self Hd Hf) as [Hv Ha].
  rewrite !filter_sorted_reverse in Hv, Ha.
  split_and!; try done.
  - intros f. unfold videos. rewrite sorted_reverse_perm, list_elem_of_filter.
    rewrite Is_true_true, video_test_spec. tauto.
  - intros f. unfold audios. rewrite sorted_reverse_perm, list_elem_of_filter.
    rewrite Is_true_true, audio_test_spec. tauto.
  - apply sorted_reverse_perm.
  - apply sorted_reverse_perm.
  - apply sorted_reverse_sorted.
  - apply sorted_reverse_sorted.
  - intros h. apply sorted_reverse_stable.
  - intros h. apply sorted_reverse_stable.
Qed.

(** C10: after a fetch, the formats entered in the video list and those
    entered in the audio list are disjoint: every format in the video list
    has a vcodec other than "none", every format in the audio list has
    vcodec "none", and no turn of the loop appends to both lists.  (When
    the duration does not fit a C int the handler raises before the loop
    and enters no format at all.) *)
Theorem selection_lists_disjoint d self :
  truthy d = true ->
  let formats := sorted_reverse height_key (default [] (formats d)) in
  let self' := fst (on_fetch_finished (Some d) self) in
  let videos := filter (fun f => video_test f) formats in
  let audios := filter (fun f => audio_test f) formats in
  (if fits_int (default 0 (duration d))
   then items (video_quality_combo self') = map video_item videos
        /\ items (audio_quality_combo self') = map audio_item audios
   else items (video_quality_combo self') = items (video_quality_combo self)
        /\ items (audio_quality_combo self')
           = items (audio_quality_combo self))
  /\ (forall f, f ∈ videos -> vcodec f <> Some (str "none"))
  /\ (forall f, f ∈ audios -> vcodec f = Some (str "none"))
  /\ (forall f, f ∈ videos -> f ∉ audios)
  /\ (forall f s,
        items (video_quality_combo (add_format s f))
        = items (video_quality_combo s)
        \/ items (audio_quality_combo (add_format s f))
           = items (audio_quality_combo s)).
Proof.
  intros Hd formats self' videos audios.
  assert (forall f, f ∈ videos -> vcodec f <> Some (str "none")) as HV.
  { intros f [Hf _]%list_elem_of_filter.
    apply Is_true_true, video_test_spec in Hf. tauto. }
  assert (forall f, f ∈ audios -> vcodec f = Some (str "none")) as HA.
  { intros f [Hf _]%list_elem_of_filter.
    apply Is_true_true, audio_test_spec in Hf. tauto. }
  split_and!; try done.
  - destruct (fits_int _) eqn:Hf.
    + apply (on_fetch_finished_items d self Hd Hf).
    + apply (on_fetch_finished_overflow_stored d self Hd Hf).
  - intros f Hf1 Hf2. by apply (HV f Hf1), HA.
  - intros f s. destruct (add_format_items s f) as [E1 E2].
    pose proof (tests_exclusive f) as Hx.
    destruct (video_test f), (audio_test f); try done.
    + right. by rewrite E2, app_nil_r.
    + left. by rewrite E1, app_nil_r.
    + left. by rewrite E1, app_nil_r.
Qed.


Lemma on_video_quality_changed_item self index data :
  0 <= index ->
  itemData index (video_quality_combo self) = Some data ->
  _on_video_quality_changed index self
  = set_audio_quality_combo
      (setEnabled (negb (merged data)) (audio_quality_combo self)) self.
Proof.
  intros Hi Hd. unfold _on_video_quality_changed.
  destruct (index <? 0) eqn:E; [apply Z.ltb_lt in E; lia|]. by rewrite Hd.
Qed.


(** The handlers of a failed or empty fetch and of a finished or failed
    download leave the stored metadata and the entries and the current
    index of both boxes as they were; so does the delivery of an error
    signal of the current worker. *)
Lemma handlers_preserve_stored self :
  (forall error_message,
     stored (fst (on_fetch_error error_message self)) = stored self)
  /\ (forall info,
        info = None \/ (exists d, info = Some d /\ truthy d = false) ->
        stored (fst (on_fetch_finished info self)) = stored self)
  /\ (forall obj, stored (fst (on_download_finished obj self)) = stored self)
  /\ (forall error_message,
        stored (fst (on_download_error error_message self)) = stored self)
  /\ (forall error_message,
        stored (fst (deliver (error error_message) self)) = stored self).
Proof.
  assert (forall m, stored (fst (on_fetch_error m self)) = stored self) as HF.
  { intros m. unfold on_fetch_error. cbn [fst].
    by rewrite stored_update_ui_state, stored_log_append. }
  assert (forall m, stored (fst (on_download_error m self)) = stored self)
    as HD.
  { intros m. unfold on_download_error. cbn [fst].
    by rewrite stored_update_ui_state, stored_log_append. }
  split; [exact HF|]. split; [|split; [|split; [exact HD|]]].
  - intros info [->|(d & -> & Hd)]; unfold on_fetch_finished; rewrite ?Hd;
      specialize (HF (str "Received empty video information."));
      by destruct (on_fetch_error _ self).
  - intros obj. unfold on_download_finished. cbn [fst].
    by rewrite stored_update_ui_state, stored_log_append.
  - intros m. unfold deliver. destruct (worker self) as [[c []]|]; simpl.
    + apply HF.
    + apply HD.
    + done.
Qed.

(** What the download handlers do write: [update_ui_state] enables both
    boxes again, whatever the selected video entry is. *)
Remark download_handlers_enable_audio self obj error_message :
  isEnabled (audio_quality_combo (fst (on_download_finished obj self))) = true
  /\ isEnabled (audio_quality_combo
                  (fst (on_download_error error_message self))) = true.
Proof. done. Qed.

(** *** download_clip *)

Lemma download_formats_rejects formats_to_dl self :
  time (end_time_edit self) <= time (start_time_edit self) ->
  download_formats formats_to_dl self
  = (self, Rejected (warning (str "Time Error")
                       (str "Start time must be before end time."))).
Proof.
  intros Ht. unfold download_formats.
  rewrite Z.geb_leb. apply Z.leb_le in Ht. by rewrite Ht.
Qed.

Lemma download_formats_started formats_to_dl self self' cmd :
  download_formats formats_to_dl self = (self', Started cmd) ->
  time (start_time_edit self) < time (end_time_edit self)
  /\ exists spec template info url,
       formats_to_dl = Some spec
       /\ output_template self = Return template
       /\ video_info self = Some info
       /\ webpage_url info = Some url
       /\ cmd = download_command spec
                  (toString (time (start_time_edit self)))
                  (toString (time (end_time_edit self))) template url.
Proof.
  unfold download_formats. rewrite Z.geb_leb.
  destruct (_ <=? _) eqn:Ht; [done|]. apply Z.leb_gt in Ht.
  destruct (output_template self) as [template|] eqn:Ho; [|done].
  destruct (video_info self) as [info|] eqn:Hi; [|done].
  destruct formats_to_dl as [spec|]; [|done].
  destruct (webpage_url info) as [url|] eqn:Hu; [|done].
  intros [= _ <-]. split; [done|]. by exists spec, template, info, url.
Qed.

Lemma output_template_info self info :
  video_info self = Some info ->
  exists template, output_template self = Return template.
Proof.
  intros Hi. unfold output_template. rewrite Hi.
  destruct (bool_decide _); eauto.
Qed.


Lemma download_clip_unselected self :
  currentData (video_quality_combo self) = None ->
  download_clip self
  = (self, Rejected (warning (str "Selection Error")
                       (str "Please select a video quality."))).
Proof. intros Hv. unfold download_clip. by rewrite Hv. Qed.

Lemma download_clip_merged self data :
  currentData (video_quality_combo self) = Some data ->
  merged data = true ->
  download_clip self = download_formats (id data) self.
Proof. intros Hv Hm. unfold download_clip. by rewrite Hv, Hm. Qed.

Lemma download_clip_unmerged self data a :
  currentData (video_quality_combo self) = Some data ->
  merged data = false ->
  mjoin (currentData (audio_quality_combo self)) = Some a ->
  a <> [] ->
  download_clip self
  = download_formats (Some (str_of_get (id data) ++ str "+" ++ a)) self.
Proof.
  intros Hv Hm Ha Hne. unfold download_clip. rewrite Hv, Hm, Ha.
  by destruct a.
Qed.

Lemma download_clip_no_audio self data :
  currentData (video_quality_combo self) = Some data ->
  merged data = false ->
  (forall a, mjoin (currentData (audio_quality_combo self)) = Some a ->
             a = []) ->
  download_clip self
  = (self,
     Rejected
       (warning (str "Selection Error")
          (str "This video format has no audio. Please select an audio format to merge."))).
Proof.
  intros Hv Hm Ha. unfold download_clip. rewrite Hv, Hm.
  destruct (mjoin _) as [[|c a]|]; [done| |done]. by specialize (Ha _ eq_refl).
Qed.

(** What a started download was started from. *)
Lemma download_clip_started self self' cmd :
  download_clip self = (self', Started cmd) ->
  exists data formatSpec,
    currentData (video_quality_combo self) = Some data
    /\ download_formats (Some formatSpec) self = (self', Started cmd)
    /\ (if merged data then id data = Some formatSpec
        else exists a,
          mjoin (currentData (audio_quality_combo self)) = Some a
          /\ a <> []
          /\ formatSpec = str_of_get (id data) ++ str "+" ++ a).
Proof.
  intros Hd.
  destruct (currentData (video_quality_combo self)) as [data|] eqn:Hv;
    [|by rewrite download_clip_unselected in Hd].
  destruct (merged data) eqn:Hm.
  - rewrite (download_clip_merged _ _ Hv Hm) in Hd.
    destruct (download_formats_started _ _ _ _ Hd)
      as (_ & spec & ? & ? & ? & Hs & _).
    exists data, spec. rewrite Hm. by rewrite <- Hs.
  - destruct (mjoin (currentData (audio_quality_combo self))) as [[|c a]|]
      eqn:Ha.
    + rewrite (download_clip_no_audio _ _ Hv Hm) in Hd; [done|].
      intros a Ha'. pose proof (eq_trans (eq_sym Ha) Ha') as E.
      by injection E.
    + rewrite (download_clip_unmerged _ _ _ Hv Hm Ha) in Hd by done.
      exists data, (str_of_get (id data) ++ str "+" ++ c :: a).
      rewrite Hm. split_and!; [done|done|]. by exists (c :: a).
    + rewrite (download_clip_no_audio _ _ Hv Hm) in Hd; [done|].
      intros a Ha'. pose proof (eq_trans (eq_sym Ha) Ha') as E.
      discriminate E.
Qed.



(** C6, as amended: a download request whose start time equals or exceeds
    its end time is rejected before any worker is started and leaves the
    window unchanged; the rejection is the time error when the format
    selection passes its checks, and a selection error when it does not. *)
Theorem download_rejects_time_range self :
  time (start_time_edit self) >= time (end_time_edit self) ->
  let video := currentData (video_quality_combo self) in
  let audio := mjoin (currentData (audio_quality_combo self)) in
  (exists box, download_clip self = (self, Rejected box))
  /\ (selection_passes video audio ->
      download_clip self
      = (self, Rejected (warning (str "Time Error")
                           (str "Start time must be before end time."))))
  /\ (~ selection_passes video audio ->
      exists body,
        download_clip self
        = (self, Rejected (warning (str "Selection Error") body))).
Proof.
  intros Ht video audio. subst video audio.
  assert (time (end_time_edit self) <= time (start_time_edit self)) as Ht'
    by lia.
  destruct (currentData (video_quality_combo self)) as [data|] eqn:Hv.
  - destruct (merged data) eqn:Hm.
    + pose proof (download_clip_merged _ _ Hv Hm) as Hd.
      rewrite (download_formats_rejects _ _ Ht') in Hd.
      split_and!; [by eexists|done|].
      intros Hn. destruct Hn. exists data. auto.
    + destruct (mjoin (currentData (audio_quality_combo self)))
        as [[|c a]|] eqn:Ha.
      * rewrite (download_clip_no_audio _ _ Hv Hm); [|
          intros a Ha'; pose proof (eq_trans (eq_sym Ha) Ha') as E;
          by injection E].
        split_and!; [by eexists| |by eexists].
        intros (data' & [= <-] & [Hm'|(a & [= <-] & Hne)]); congruence.
      * pose proof (download_clip_unmerged _ _ _ Hv Hm Ha) as Hd.
        rewrite (download_formats_rejects _ _ Ht') in Hd.
        split_and!; [eexists; by apply Hd|by intros; apply Hd|].
        intros Hn. destruct Hn. exists data.
        split; [done|]. right. by exists (c :: a).
      * rewrite (download_clip_no_audio _ _ Hv Hm); [|
          intros a Ha'; pose proof (eq_trans (eq_sym Ha) Ha') as E;
          discriminate E].
        split_and!; [by eexists| |by eexists].
        intros (data' & [= <-] & [Hm'|(a & [=] & Hne)]); congruence.
  - rewrite (download_clip_unselected _ Hv).
    split_and!; [by eexists| |by eexists].
    by intros (data & [=] & _).
Qed.

(** *** The output template *)

Lemma is_forbidden_spec c : is_forbidden c = false <-> c ∉ forbidden.
Proof.
  unfold is_forbidden. rewrite <- not_true_iff_false, existsb_exists.
  setoid_rewrite <- list_elem_of_In. split.
  - intros Hn Hc. apply Hn. exists c. split; [done|]. apply N.eqb_refl.
  - intros Hn (x & Hx & E). apply N.eqb_eq in E. by subst.
Qed.

Lemma re_sub_forbidden_spec s :
  re_sub_forbidden s = filter (fun c => c ∉ forbidden) s.
Proof.
  unfold re_sub_forbidden. apply list_filter_iff. intros c.
  apply is_forbidden_spec.
Qed.

Lemma os_path_join_plain a b :
  a <> [] -> endswith slash a = false -> startswith slash b = false ->
  os_path_join a b = a ++ str "/" ++ b.
Proof.
  intros Ha He Hs. unfold os_path_join. rewrite Hs, He.
  by rewrite (bool_decide_eq_false_2 _ Ha).
Qed.

Lemma startswith_app c a b :
  startswith c a = false -> startswith c b = false ->
  startswith c (a ++ b) = false.
Proof. by destruct a. Qed.

(** C7, as amended: the output template of a started download, the
    argument after "-o", is os.path.join of the output directory and
    "<basename>.%(ext)s".  The basename is the trimmed file name when that
    is not empty, and otherwise the fetched title (or "video" when the
    metadata has none) with every backslash, slash, star, question mark,
    colon, double quote, less-than, greater-than and vertical bar deleted.
    The template reads "<outputDir>/<basename>.%(ext)s" when the directory
    is not empty and does not end with a slash and the basename does not
    start with one. *)
Theorem download_output_template self self' cmd :
  download_clip self = (self', Started cmd) ->
  let filename := strip (filename_input self) in
  let outputDir := output_path_input self in
  exists basename,
    cmd !! 8%nat = Some (str "-o")
    /\ cmd !! 9%nat
       = Some (os_path_join outputDir (basename ++ str ".%(ext)s"))
    /\ (filename <> [] -> basename = filename)
    /\ (filename = [] ->
        exists info,
          video_info self = Some info
          /\ basename
             = filter (fun c => c ∉ forbidden)
                 (default (str "video") (title info)))
    /\ (outputDir <> [] -> endswith slash outputDir = false ->
        startswith slash basename = false ->
        cmd !! 9%nat = Some (template outputDir basename)).
Proof.
  intros Hd filename outputDir.
  destruct (download_clip_started _ _ _ Hd) as (data & spec & _ & Hf & _).
  destruct (download_formats_started _ _ _ _ Hf)
    as (_ & spec' & t & info & url & _ & Ho & Hi & _ & ->).
  unfold output_template in Ho. rewrite Hi in Ho. fold filename in Ho.
  fold outputDir in Ho.
  assert (forall basename,
            t = os_path_join outputDir (basename ++ ext_suffix) ->
            outputDir <> [] -> endswith slash outputDir = false ->
            startswith slash basename = false ->
            Some t = Some (template outputDir basename)) as Hplain.
  { intros basename -> H1 H2 H3. unfold template.
    rewrite os_path_join_plain; [done|done|done|].
    by apply startswith_app. }
  destruct (bool_decide (filename = [])) eqn:E.
  - apply bool_decide_eq_true in E. injection Ho as <-.
    exists (re_sub_forbidden (default (str "video") (title info))).
    split_and!; [done|done|done| |].
    + intros _. exists info. split; [done|]. apply re_sub_forbidden_spec.
    + by apply Hplain.
  - apply bool_decide_eq_false in E. injection Ho as <-.
    exists filename. split_and!; [done|done|done|done|]. by apply Hplain.
Qed.

(** *** JSON mode of the runner *)

(** C9: the runner expects a JSON result exactly when the string "-j" or
    the string "--dump-json" is an element of the argument list, at any
    position; for such a command the outcome follows the JSON rules
    whatever the exit status, and for any other command the exit status
    rules.  The last argument of a download command is the page address of
    the metadata as it stands, so an address equal to "-j" puts a download
    under the JSON rules. *)
Theorem json_expected_by_membership `{Platform} command process return_code :
  Popen command = Return process ->
  wait process = Return return_code ->
  let listed := str "-j" ∈ command \/ str "--dump-json" ∈ command in
  let full_output := concat (stdout process) in
  (is_json_dump command = true <-> listed)
  /\ (listed ->
      outcomes (fst (run command)) = [classify true full_output return_code])
  /\ (~ listed ->
      outcomes (fst (run command)) = [classify false full_output return_code])
  /\ (forall self self' info,
        download_clip self = (self', Started command) ->
        video_info self = Some info ->
        webpage_url info = Some (str "-j") ->
        listed).
Proof.
  intros HP HW listed full_output.
  pose proof (is_json_dump_spec command) as Hj. fold listed in Hj.
  assert (outcomes (fst (run command))
          = [classify (is_json_dump command) full_output return_code]) as Ho.
  { rewrite (run_exited _ _ _ HP HW). cbn [fst].
    rewrite outcomes_app, outcomes_progress. unfold outcomes. simpl.
    by rewrite outcome_of_signal_of. }
  split_and!; [done| | |].
  - intros Hl. apply Hj in Hl. by rewrite Ho, Hl.
  - intros Hl. rewrite Ho. destruct (is_json_dump command); [|done].
    destruct Hl. by apply Hj.
  - intros self self' info Hd Hi Hu.
    destruct (download_clip_started _ _ _ Hd) as (data & spec & _ & Hf & _).
    destruct (download_formats_started _ _ _ _ Hf)
      as (_ & spec' & t & info' & url & _ & _ & Hi' & Hu' & Hc).
    assert (info' = info) as -> by congruence.
    assert (url = str "-j") as -> by congruence.
    left. rewrite Hc. unfold download_command.
    do 10 apply list_elem_of_further. apply list_elem_of_here.
Qed.

(** ** The theorems at the sample sessions *)

Import Examples.

(** A fetch whose output starts with a warning and whose exit status is 1
    still delivers the parsed object. *)
Lemma run_classifies_outcome_witness :
  let command :=
    [str "yt-dlp"; str "--dump-json"; str "https://example.com/watch"] in
  (exists process,
     @Popen noisy_fetch command = Return process
     /\ wait process = Return 1)
  /\ outcomes (fst (@run noisy_fetch command)) = [SucceededWithData demo].
Proof.
  intros command. split.
  - eexists. split; reflexivity.
  - exact (proj1 (@run_classifies_outcome noisy_fetch command _ 1
                    eq_refl eq_refl)).
Defined.

(** Without yt-dlp on the search path the message names it. *)
Lemma run_missing_executable_witness :
  exists message,
    @run not_installed [str "yt-dlp"; str "--dump-json"; str "u"]
    = ([error message], Return tt)
    /\ outcomes
         (fst (@run not_installed [str "yt-dlp"; str "--dump-json"; str "u"]))
       = [Failed message]
    /\ substring (str "yt-dlp") message.
Proof.
  exact (@run_missing_executable not_installed (str "yt-dlp")
           [str "--dump-json"; str "u"] _ eq_refl).
Defined.

(** The sample metadata fills the boxes with 1080p and 720p, and with the
    one audio-only format. *)
Lemma fetch_selection_lists_witness :
  truthy demo = true
  /\ items (video_quality_combo (fetched demo))
     = map video_item [f137; f22]
  /\ items (audio_quality_combo (fetched demo)) = map audio_item [f140].
Proof.
  split; [reflexivity|].
  destruct (fetch_selection_lists demo (init home) eq_refl eq_refl)
    as (Hv & Ha & _).
  split; [exact Hv|exact Ha].
Defined.

Lemma selection_lists_disjoint_witness :
  truthy demo = true
  /\ forall f,
       f ∈ filter (fun f => video_test f)
             (sorted_reverse height_key [f22; f140; f137]) ->
       f ∉ filter (fun f => audio_test f)
             (sorted_reverse height_key [f22; f140; f137]).
Proof.
  split; [reflexivity|].
  destruct (selection_lists_disjoint demo (init home) eq_refl)
    as (_ & _ & _ & Hd & _).
  exact Hd.
Defined.



(** An inverted range with a valid selection gives the time error. *)
Lemma download_rejects_time_range_witness :
  let self := clip 10 5 "" (fetched demo) in
  time (start_time_edit self) >= time (end_time_edit self)
  /\ download_clip self
     = (self, Rejected (warning (str "Time Error")
                          (str "Start time must be before end time."))).
Proof.
  intros self.
  assert (time (start_time_edit self) >= time (end_time_edit self)) as Ht.
  { vm_compute. discriminate. }
  split; [exact Ht|].
  destruct (download_rejects_time_range self Ht) as (_ & Hp & _).
  apply Hp. eexists. split; [reflexivity|]. right.
  exists (str "140"). split; [reflexivity|discriminate].
Defined.

(** With an empty file name the template is built from the title. *)
Lemma download_output_template_witness :
  let command :=
    download_command (str "22") (str "00:00:05") (str "00:00:10")
      (str "/home/user/Demo.%(ext)s") (str "https://example.com/watch") in
  (exists self', download_clip ready_720 = (self', Started command))
  /\ command !! 9%nat = Some (template home (str "Demo")).
Proof.
  intros command.
  assert (download_clip ready_720
          = (fst (download_clip ready_720), Started command)) as Hd.
  { vm_compute. reflexivity. }
  split; [by eauto|].
  assert (strip (filename_input ready_720) = []) as Hname
    by (vm_compute; reflexivity).
  assert (video_info ready_720 = Some demo) as Hinfo
    by (vm_compute; reflexivity).
  assert (output_path_input ready_720 = home) as Hdir
    by (vm_compute; reflexivity).
  destruct (download_output_template _ _ _ Hd)
    as (basename & _ & _ & _ & Ht & Hp).
  destruct (Ht Hname) as (info & Hi & Hb).
  rewrite Hinfo in Hi. injection Hi as <-.
  rewrite Hdir in Hp. rewrite Hp.
  - rewrite Hb. vm_compute. reflexivity.
  - discriminate.
  - reflexivity.
  - rewrite Hb. vm_compute. reflexivity.
Defined.

(** A download whose page address is "-j": exit status 0, and yet the
    outcome is the failure of the JSON rules. *)
Lemma json_expected_by_membership_witness :
  let command :=
    download_command (str "22") (str "00:00:05") (str "00:00:10")
      (str "/home/user/Demo.%(ext)s") (str "-j") in
  (exists self', download_clip dash_j = (self', Started command))
  /\ (exists process,
        @Popen quiet_download command = Return process
        /\ wait process = Return 0)
  /\ outcomes (fst (@run quiet_download command))
     = [Failed (str "Could not find video information in the output.")].
Proof.
  intros command.
  assert (download_clip dash_j
          = (fst (download_clip dash_j), Started command)) as Hd.
  { vm_compute. reflexivity. }
  split; [by eauto|]. split; [eexists; split; reflexivity|].
  destruct (@json_expected_by_membership quiet_download command _ 0
              eq_refl eq_refl) as (_ & Hj & _ & Hl).
  rewrite Hj; [reflexivity|].
  by apply (Hl dash_j _ (metadata "-j" [f22]) Hd).
Defined.

(** The labels of a format whose 'fps' and 'abr' are null, and of one
    that has neither key. *)
Example labels_of_null_values :
  let null :=
    {| format_id := Some (str "18"); ext := Some (str "mp4");
       vcodec := Some (str "avc1"); acodec := Some (str "opus");
       height := Some 360; fps := Some None; abr := Some None |} in
  let absent :=
    {| format_id := Some (str "18"); ext := Some (str "mp4");
       vcodec := Some (str "avc1"); acodec := Some (str "opus");
       height := Some 360; fps := None; abr := None |} in
  fst (video_item null) = str "360p (Nonefps, mp4) (Video+Audio)"
  /\ fst (audio_item null) = str "Nonek (opus, mp4)"
  /\ fst (video_item absent) = str "360p (N/Afps, mp4) (Video+Audio)"
  /\ fst (audio_item absent) = str "0k (opus, mp4)".
Proof. by vm_compute. Qed.

(** ** Where the code departs from the specification's wording *)

(** C1, as stated, fails: json.loads can reject the text after the first
    '{' with an exception that is not JSONDecodeError (here the recursion
    limit of the decoder); the outcome is then Failed with the
    unexpected-error message, not with the "failed to parse" message. *)
Lemma classification_counterexample :
  ~ @Stated.classification deep_nesting
      [str "yt-dlp"; str "--dump-json"; str "https://example.com/watch"].
Proof.
  intros Hc. specialize (Hc _ 0 eq_refl eq_refl).
  vm_compute in Hc. discriminate Hc.
Qed.

(** C8: the window [ready_720] has the merged 720p entry selected and the
    audio box disabled, as the handler of the video selection left it.
    The handlers of a finished and of a failed download keep the metadata,
    the entries and the selected formats, but [update_ui_state] enables
    the audio box and, unlike [on_fetch_finished], they do not call the
    handler of the video selection again, which would disable it: the
    selection state is not preserved. *)
Theorem download_handlers_enable_merged_audio :
  let audio := audio_quality_combo in
  let finished obj := fst (on_download_finished obj ready_720) in
  let failed error_message :=
    fst (on_download_error error_message ready_720) in
  let check self :=
    _on_video_quality_changed (currentIndex (video_quality_combo self))
      self in
  currentData (video_quality_combo ready_720)
  = Some {| id := Some (str "22"); merged := true |}
  /\ isEnabled (audio ready_720) = false
  /\ (forall obj,
        stored (finished obj) = stored ready_720
        /\ isEnabled (audio (finished obj)) = true
        /\ isEnabled (audio (check (finished obj))) = false)
  /\ (forall error_message,
        stored (failed error_message) = stored ready_720
        /\ isEnabled (audio (failed error_message)) = true
        /\ isEnabled (audio (check (failed error_message))) = false)
  /\ ~ Stated.download_preserves_selection ready_720.
Proof.
  intros audio finished failed check.
  destruct (handlers_preserve_stored ready_720) as (_ & _ & Hf & He & _).
  split_and!; [by vm_compute|by vm_compute| | |].
  - intros obj. split; [apply Hf|]. split; [done|by vm_compute].
  - intros error_message. split; [apply He|].
    split; [done|].
    unfold check, failed, on_download_error. cbn [fst].
    rewrite on_video_quality_changed_item
      with (data := {| id := Some (str "22"); merged := true |});
      [done|by vm_compute|by vm_compute].
  - intros Hc. destruct (Hc None []) as [[_ Hs] _].
    vm_compute in Hs. discriminate Hs.
Qed.

(** C2, as stated, fails: a stream with both codecs and no height is
    audio-capable and not video-capable in the specification's terms, yet
    the audio box stays empty. *)
Lemma selection_lists_counterexample :
  ~ Stated.selection_lists (metadata "https://example.com/watch" [hls])
      (init home).
Proof.
  intros (videos & audios & _ & Ha & _ & _ & Hp).
  assert (audios = []) as ->.
  { vm_compute in Ha. by destruct audios. }
  apply Permutation_length in Hp. discriminate Hp.
Qed.

(** C6, as stated, fails: with nothing selected and an empty range the
    request is turned down with the selection error, not the time error. *)
Lemma time_rejection_counterexample :
  ~ Stated.time_rejection nothing_to_select.
Proof.
  intros Hc.
  assert (time (start_time_edit nothing_to_select)
          >= time (end_time_edit nothing_to_select)) as Ht.
  { vm_compute. discriminate. }
  specialize (Hc Ht). vm_compute in Hc. discriminate Hc.
Qed.

(** C7, as stated, fails: a file name that starts with a slash replaces
    the output directory instead of being appended to it. *)
Lemma output_template_counterexample :
  ~ Stated.output_template absolute_name.
Proof.
  intros Hc.
  destruct (Hc (fst (download_clip absolute_name))
              (download_command (str "137+140") (str "00:00:05")
                 (str "00:00:10") (str "/tmp/clip.%(ext)s")
                 (str "https://example.com/watch")))
    as (basename & Ht & Hn & _).
  { vm_compute. reflexivity. }
  rewrite Hn in Ht by discriminate.
  vm_compute in Ht. discriminate Ht.
Qed.

(** * Further properties of the code *)

Import Startup Session Effects.

(** ** Worker.run, whatever the platform does *)

Section RunnerTotal.
Context `{Platform}.

Lemma run_popen_raises executable arguments e :
  Popen (executable :: arguments) = Raise e ->
  run (executable :: arguments)
  = ([error (failure_message executable e)], Return tt).
Proof. intros HP. unfold run. rewrite HP. by destruct e. Qed.

Lemma run_wait_raises executable arguments process e :
  Popen (executable :: arguments) = Return process ->
  wait process = Raise e ->
  run (executable :: arguments)
  = (map (fun line => progress (strip line)) (stdout process)
     ++ [error (failure_message executable e)], Return tt).
Proof.
  intros HP HW. unfold run. rewrite HP. unfold lift, bind at 1. simpl.
  rewrite read_lines_spec, HW. destruct e; simpl; by rewrite ?app_nil_r.
Qed.

(** The shape of what [run] emits for a command that is not empty. *)
Lemma run_shape executable arguments :
  exists lines sig,
    run (executable :: arguments)
    = (map progress lines ++ [sig], Return tt)
    /\ terminal sig = true.
Proof.
  destruct (Popen (executable :: arguments)) as [process|e] eqn:HP.
  - destruct (wait process) as [return_code|e] eqn:HW.
    + rewrite (run_exited _ _ _ HP HW).
      exists (map strip (stdout process)). eexists.
      rewrite map_map. split; [done|].
      by destruct (classify _ _ _).
    + rewrite (run_wait_raises _ _ _ _ HP HW).
      exists (map strip (stdout process)). eexists.
      rewrite map_map. done.
  - rewrite (run_popen_raises _ _ _ HP).
    by exists [], (error (failure_message executable e)).
Qed.

(** X1: for a command that is not empty and a child process that ends
    (it closes its output and exits, or reading or waiting raises), [run]
    lets no exception escape and emits line signals followed by exactly one
    terminal signal, whether Popen starts the process or raises and
    whatever json.loads does with the output. *)
Theorem run_delivers_one_outcome command :
  command <> [] ->
  exists lines sig outcome,
    run command = (map progress lines ++ [sig], Return tt)
    /\ outcome_of sig = Some outcome
    /\ outcomes (fst (run command)) = [outcome].
Proof.
  destruct command as [|executable arguments]; [done|]. intros _.
  destruct (run_shape executable arguments) as (lines & sig & Hr & Ht).
  destruct (outcome_of sig) as [o|] eqn:Ho;
    [|by destruct sig as [?|[?|]|?]].
  exists lines, sig, o. rewrite Hr. split_and!; [done|done|].
  cbn [fst]. rewrite outcomes_app. unfold outcomes at 2. simpl. rewrite Ho.
  replace (outcomes (map progress lines)) with (@nil outcome); [done|].
  clear Hr. induction lines as [|line lines IH]; [done|exact IH].
Qed.

(** X2: an exception of Popen other than FileNotFoundError is reported as
    one Failed outcome, "An unexpected error occurred: " followed by the
    text of the exception; nothing else is emitted. *)
Theorem run_launch_failure executable arguments e :
  Popen (executable :: arguments) = Raise e ->
  (forall msg, e <> FileNotFoundError msg) ->
  run (executable :: arguments)
  = ([error (str "An unexpected error occurred: " ++ exn_str e)], Return tt).
Proof.
  intros HP He. rewrite (run_popen_raises _ _ _ HP).
  destruct e; [by destruct (He msg)|done|done].
Qed.

(** X3: when the process was started and reading its output or waiting
    for it raises, every line read so far has been delivered, stripped and
    in order, and the run ends with one Failed outcome: the
    command-not-found message for a FileNotFoundError, and otherwise "An
    unexpected error occurred: " followed by the text of the exception. *)
Theorem run_failure_after_output executable arguments process e :
  Popen (executable :: arguments) = Return process ->
  wait process = Raise e ->
  run (executable :: arguments)
  = (map (fun line => progress (strip line)) (stdout process)
     ++ [error (failure_message executable e)], Return tt)
  /\ outcomes (fst (run (executable :: arguments)))
     = [Failed (failure_message executable e)].
Proof.
  intros HP HW. rewrite (run_wait_raises _ _ _ _ HP HW). split; [done|].
  cbn [fst]. by rewrite outcomes_app, outcomes_progress.
Qed.

End RunnerTotal.

(** ** Closed forms of the window's methods *)

Lemma update_ui_state_closed initial fetching info_loaded downloading self :
  update_ui_state initial fetching info_loaded downloading self
  = with_controls (negb (fetching || downloading))
      (info_loaded && negb downloading && negb fetching) self.
Proof. by destruct self, initial. Qed.

Lemma on_fetch_error_closed error_message self :
  on_fetch_error error_message self
  = (with_controls true false
       (log_append (nl ++ str "ERROR: " ++ error_message) self),
     critical (str "Error")
       (str "Failed to fetch video info." ++ nl ++ nl ++ error_message)).
Proof. unfold on_fetch_error. by rewrite update_ui_state_closed. Qed.

Lemma on_download_finished_closed obj self :
  on_download_finished obj self
  = (with_controls true true
       (log_append (nl ++ str "Download completed successfully!") self),
     information (str "Success") (str "Video clip has been downloaded!")).
Proof. unfold on_download_finished. by rewrite update_ui_state_closed. Qed.

Lemma on_download_error_closed error_message self :
  on_download_error error_message self
  = (with_controls true true
       (log_append (nl ++ str "DOWNLOAD ERROR: " ++ error_message) self),
     critical (str "Download Error")
       (str "The download failed." ++ nl ++ nl
        ++ str "Check the log for details.")).
Proof. unfold on_download_error. by rewrite update_ui_state_closed. Qed.

Lemma fetch_video_info_blank self :
  strip (text (url_input self)) = [] ->
  fetch_video_info self
  = (self, Some (warning (str "Input Error")
                   (str "Please enter a video URL."))).
Proof.
  intros Hu. unfold fetch_video_info.
  by rewrite (bool_decide_eq_true_2 _ Hu).
Qed.

Lemma fetch_video_info_closed self :
  strip (text (url_input self)) <> [] ->
  let url := strip (text (url_input self)) in
  fetch_video_info self
  = (set_worker
       (Some {| command := [str "yt-dlp"; str "--dump-json"; url];
                connected := FetchSlots |})
       (with_controls false false
          (set_log_output
             [str "Fetching info for: " ++ url ++ str "..."] self)),
     None).
Proof.
  intros Hu url. unfold fetch_video_info.
  rewrite (bool_decide_eq_false_2 _ Hu), update_ui_state_closed.
  by destruct self.
Qed.

Lemma addItems_nil {A} (c : QComboBox A) : addItems [] c = c.
Proof. destruct c as [its idx en]. unfold addItems. simpl.
  rewrite app_nil_r. by destruct its. Qed.

Lemma addItems_app {A} (l1 l2 : list (pystr * A)) c :
  addItems l2 (addItems l1 c) = addItems (l1 ++ l2) c.
Proof.
  destruct c as [its idx en]. unfold addItems. simpl.
  rewrite app_assoc. by destruct its, l1, l2.
Qed.

Lemma addItems_one {A} text (data : A) c :
  addItem text data c = addItems [(text, data)] c.
Proof. destruct c as [its idx en]. unfold addItem, addItems. simpl.
  by destruct its. Qed.

Lemma addItems_setEnabled {A} (l : list (pystr * A)) b c :
  addItems l (setEnabled b c) = setEnabled b (addItems l c).
Proof. done. Qed.

(** The handler writes the enabled flag of the audio box, or nothing. *)
Lemma on_video_quality_changed_closed index self :
  exists b,
    _on_video_quality_changed index self
    = set_audio_quality_combo (setEnabled b (audio_quality_combo self)) self
    /\ (itemData index (video_quality_combo self) = None ->
        b = isEnabled (audio_quality_combo self))
    /\ (forall data,
          0 <= index ->
          itemData index (video_quality_combo self) = Some data ->
          b = negb (merged data)).
Proof.
  unfold _on_video_quality_changed.
  destruct (index <? 0) eqn:Hi.
  - exists (isEnabled (audio_quality_combo self)). split_and!.
    + by destruct self as [? ? ? ? ? ? [? ? ?] ? ? ? ? ? ? ?].
    + done.
    + intros data Hp. apply Z.ltb_lt in Hi. lia.
  - destruct (itemData index (video_quality_combo self)) as [data|].
    + exists (negb (merged data)). split_and!; [done|done|].
      by intros ? _ [= <-].
    + exists (isEnabled (audio_quality_combo self)). split_and!; [|done|done].
      by destruct self as [? ? ? ? ? ? [? ? ?] ? ? ? ? ? ? ?].
Qed.

Lemma change_video_combo_closed f self :
  exists b,
    change_video_combo f self
    = set_audio_quality_combo (setEnabled b (audio_quality_combo self))
        (set_video_quality_combo (f (video_quality_combo self)) self).
Proof.
  unfold change_video_combo.
  set (self' := set_video_quality_combo _ self).
  destruct (_ =? _).
  - exists (isEnabled (audio_quality_combo self)).
    subst self'. by destruct self as [? ? ? ? ? ? [? ? ?] ? ? ? ? ? ? ?].
  - destruct (on_video_quality_changed_closed
                (currentIndex (video_quality_combo self')) self')
      as (b & -> & _).
    by exists b.
Qed.

Lemma add_format_closed self f :
  exists b,
    add_format self f
    = set_audio_quality_combo
        (setEnabled b
           (addItems (if audio_test f then [audio_item f] else [])
              (audio_quality_combo self)))
        (set_video_quality_combo
           (addItems (if video_test f then [video_item f] else [])
              (video_quality_combo self)) self).
Proof.
  unfold add_format.
  destruct (video_test f).
  - destruct (video_item f) as [label data].
    destruct (change_video_combo_closed (addItem label data) self)
      as (b & ->).
    rewrite addItems_one.
    destruct (audio_test f).
    + destruct (audio_item f) as [alabel adata].
      exists b. cbn [audio_quality_combo set_audio_quality_combo
                       set_video_quality_combo].
      by rewrite addItems_one.
    + exists b. by rewrite addItems_nil.
  - rewrite addItems_nil. destruct (audio_test f).
    + destruct (audio_item f) as [alabel adata].
      exists (isEnabled (audio_quality_combo self)).
      rewrite addItems_one.
      by destruct self as [? ? ? ? ? [? ? ?] [? ? ?] ? ? ? ? ? ? ?].
    + exists (isEnabled (audio_quality_combo self)). rewrite addItems_nil.
      by destruct self as [? ? ? ? ? [? ? ?] [? ? ?] ? ? ? ? ? ? ?].
Qed.

Lemma add_formats_closed formats self :
  exists b,
    fold_left add_format formats self
    = set_audio_quality_combo
        (setEnabled b
           (addItems (map audio_item (filter (fun f => audio_test f) formats))
              (audio_quality_combo self)))
        (set_video_quality_combo
           (addItems (map video_item (filter (fun f => video_test f) formats))
              (video_quality_combo self)) self).
Proof.
  revert self. induction formats as [|f formats IH]; intros self.
  - exists (isEnabled (audio_quality_combo self)). simpl.
    rewrite !addItems_nil.
    by destruct self as [? ? ? ? ? [? ? ?] [? ? ?] ? ? ? ? ? ? ?].
  - simpl. destruct (add_format_closed self f) as (b1 & ->).
    match goal with
    | |- context [fold_left add_format formats ?s] =>
        destruct (IH s) as (b & ->)
    end.
    exists b.
    cbn [audio_quality_combo video_quality_combo set_audio_quality_combo
         set_video_quality_combo].
    rewrite addItems_setEnabled, !addItems_app, !filter_cons.
    destruct (video_test f), (audio_test f); reflexivity.
Qed.

(** Reduction of the assignments and of the projections of a window, by
    value. *)
Ltac window_cbn :=
  cbv beta iota zeta delta
      [log_append set_video_info set_url_input set_fetch_button
       set_title_label set_duration_label set_video_quality_combo
       set_audio_quality_combo set_start_time_edit set_end_time_edit
       set_output_path_input set_filename_input set_download_button
       set_log_output set_worker with_controls
       video_info url_input fetch_button title_label duration_label
       video_quality_combo audio_quality_combo start_time_edit end_time_edit
       output_path_input filename_input download_button log_output worker
       items currentIndex isEnabled clear setEnabled addItems
       text lineEnabled fst snd negb orb andb];
  cbn [app].

Lemma on_fetch_finished_overflow d self :
  truthy d = true ->
  fits_int (default 0 (duration d)) = false ->
  on_fetch_finished (Some d) self = (overflowed d self, Overflows).
Proof.
  intros Hd Hf. unfold on_fetch_finished.
  rewrite Hd, (addSecs_overflow _ _ Hf). by destruct self.
Qed.

Lemma on_fetch_finished_closed d self :
  truthy d = true ->
  fits_int (default 0 (duration d)) = true ->
  on_fetch_finished (Some d) self = (populated d self, Returns None).
Proof.
  intros Hd Hf. unfold on_fetch_finished.
  rewrite Hd, (addSecs_fits _ _ Hf), Z.add_0_l.
  change (default 0 (duration d) mod 86400) with (duration_time d).
  unfold show_video_info.
  destruct self as [vi ui fb tl dl [vits vidx ven] [aits aidx aen]
                      ste ete op fi db lo wk].
  window_cbn.
  match goal with
  | |- context [change_video_combo ?f ?s] =>
      destruct (change_video_combo_closed f s) as (b0 & ->)
  end.
  window_cbn.
  match goal with
  | |- context [fold_left add_format ?l ?s] =>
      destruct (add_formats_closed l s) as (b1 & ->)
  end.
  rewrite update_ui_state_closed. window_cbn.
  match goal with
  | |- context [_on_video_quality_changed ?i ?s] =>
      destruct (on_video_quality_changed_closed i s) as (b & -> & Hn & Hs)
  end.
  revert Hn Hs. unfold populated, filled. window_cbn.
  set (videos := map video_item _).
  set (audios := map audio_item _).
  intros Hn Hs.
  assert (b = match videos with
              | [] => true
              | (_, data) :: _ => negb (merged data)
              end) as ->.
  { destruct videos as [|[label data] videos].
    - by apply Hn.
    - by apply (Hs data). }
  by destruct videos, audios.
Qed.

Lemma download_formats_state formats_to_dl self self' cmd :
  download_formats formats_to_dl self = (self', Started cmd) ->
  self'
  = set_worker (Some {| command := cmd; connected := DownloadSlots |})
      (with_controls false false
         (set_log_output (log_output self ++ download_log cmd) self)).
Proof.
  unfold download_formats. rewrite Z.geb_leb.
  destruct (_ <=? _); [done|].
  destruct (output_template self) as [template|]; [|done].
  destruct (video_info self) as [info|]; [|done].
  destruct formats_to_dl as [spec|]; [|done].
  destruct (webpage_url info) as [url|]; [|done].
  rewrite update_ui_state_closed. intros [= <- <-].
  destruct self as [vi ui fb tl dl vq aq ste ete op fi db lo wk].
  unfold download_log. window_cbn. by rewrite <- !app_assoc.
Qed.

Lemma download_formats_not_started formats_to_dl self self' o :
  download_formats formats_to_dl self = (self', o) ->
  (forall cmd, o <> Started cmd) ->
  self' = self
  \/ self'
     = log_append (str "Starting download with command:")
         (log_append (nl ++ repeat 61%N 50) self).
Proof.
  unfold download_formats. rewrite Z.geb_leb.
  destruct (_ <=? _); [intros [= <- _] _; by left|].
  destruct (output_template self) as [template|];
    [|intros [= <- _] _; by left].
  destruct (video_info self) as [info|]; [|intros [= <- _] _; by left].
  destruct formats_to_dl as [spec|];
    [destruct (webpage_url info) as [url|]|];
    intros [= <- <-] Hn; try by right.
  exfalso. by eapply Hn.
Qed.

Lemma download_clip_state self self' cmd :
  download_clip self = (self', Started cmd) ->
  self'
  = set_worker (Some {| command := cmd; connected := DownloadSlots |})
      (with_controls false false
         (set_log_output (log_output self ++ download_log cmd) self)).
Proof.
  intros Hd.
  destruct (download_clip_started _ _ _ Hd) as (data & spec & _ & Hf & _).
  by apply download_formats_state in Hf.
Qed.

Lemma download_clip_not_started self self' o :
  download_clip self = (self', o) ->
  (forall cmd, o <> Started cmd) ->
  self' = self
  \/ self'
     = log_append (str "Starting download with command:")
         (log_append (nl ++ repeat 61%N 50) self).
Proof.
  unfold download_clip.
  destruct (currentData (video_quality_combo self)) as [data|];
    [|intros [= <- _] _; by left].
  destruct (merged data);
    [apply download_formats_not_started|].
  destruct (mjoin _) as [[|c a]|]; try (intros [= <- _] _; by left).
  apply download_formats_not_started.
Qed.

(** ** The event loop *)

Lemma duration_time_range d : 0 <= duration_time d <= 86399.
Proof.
  unfold duration_time.
  pose proof (Z.mod_pos_bound (default 0 (duration d)) 86400). lia.
Qed.

Lemma time_edit_ok_setTime t e : time_edit_ok e -> time_edit_ok (setTime t e).
Proof.
  unfold time_edit_ok, setTime, bound. simpl. lia.
Qed.

Lemma time_edit_ok_setMaximumTime m e :
  0 <= m <= 86399 -> time_edit_ok e -> time_edit_ok (setMaximumTime m e).
Proof.
  unfold time_edit_ok, setMaximumTime, bound. simpl. lia.
Qed.

Lemma invariant_frame self self' q :
  buttons self' = buttons self ->
  view self' = view self ->
  invariant {| window := self; queued := q |} ->
  invariant {| window := self'; queued := q |}.
Proof.
  unfold buttons, view. intros [= Hf Hd] [= Hi Hv Ha Hs He] [].
  constructor; simpl in *; by rewrite ?Hf, ?Hd, ?Hi, ?Hv, ?Ha, ?Hs, ?He.
Qed.

(** A change of the buttons and of the queue that leaves the metadata, the
    entries and the time fields alone. *)
Lemma invariant_controls self self' q q' :
  view self' = view self ->
  one_execution q' ->
  (q' <> [] -> buttons self' = (false, false)) ->
  invariant {| window := self; queued := q |} ->
  invariant {| window := self'; queued := q' |}.
Proof.
  unfold buttons, view. intros [= Hi Hv Ha Hs He] Hq Hb [].
  constructor; simpl in *; rewrite ?Hi, ?Hv, ?Ha, ?Hs, ?He; try done.
  intros Hne. by injection (Hb Hne).
Qed.

Lemma one_execution_tail sig rest :
  one_execution (sig :: rest) ->
  one_execution rest /\ (terminal sig = true -> rest = []).
Proof.
  intros [?|(lines & t & E & Ht)]; [done|].
  destruct lines as [|line lines]; simplify_eq/=.
  - split; [by left|done].
  - split; [right; by exists lines, t|done].
Qed.

Lemma invariant_populated d self q :
  invariant {| window := self; queued := q |} ->
  invariant {| window := populated d self; queued := [] |}.
Proof.
  intros [_ _ _ Hs He _]. simpl in *.
  pose proof (duration_time_range d) as Hd.
  constructor; simpl.
  - by left.
  - done.
  - done.
  - by apply time_edit_ok_setTime, time_edit_ok_setMaximumTime.
  - by apply time_edit_ok_setMaximumTime, time_edit_ok_setTime.
  - by intros info [= <-].
Qed.

Lemma view_select_video index self :
  buttons (select_video index self) = buttons self
  /\ view (select_video index self) = view self.
Proof.
  unfold select_video.
  by destruct (change_video_combo_closed (setCurrentIndex index) self)
    as (b & ->).
Qed.

Lemma view_download_not_started self self' o :
  download_clip self = (self', o) ->
  (forall cmd, o <> Started cmd) ->
  buttons self' = buttons self /\ view self' = view self.
Proof.
  intros Hd Ho.
  by destruct (download_clip_not_started _ _ _ Hd Ho) as [-> | ->].
Qed.

Lemma deliver_fetch sig self c :
  worker self = Some {| command := c; connected := FetchSlots |} ->
  deliver sig self
  = match sig with
    | progress line => (update_log line self, Returns None)
    | finished obj => on_fetch_finished obj self
    | error msg => with_box (on_fetch_error msg self)
    end.
Proof. intros Hw. unfold deliver. rewrite Hw. by destruct sig. Qed.

Lemma deliver_download sig self c :
  worker self = Some {| command := c; connected := DownloadSlots |} ->
  deliver sig self
  = match sig with
    | progress line => (update_log line self, Returns None)
    | finished obj => with_box (on_download_finished obj self)
    | error msg => with_box (on_download_error msg self)
    end.
Proof. intros Hw. unfold deliver. rewrite Hw. by destruct sig. Qed.

Lemma deliver_no_worker sig self :
  worker self = None -> deliver sig self = (self, Returns None).
Proof. intros Hw. unfold deliver. rewrite Hw. by destruct sig. Qed.

Lemma on_fetch_finished_empty obj self :
  (forall d, obj = Some d -> truthy d = false) ->
  on_fetch_finished obj self
  = with_box (on_fetch_error (str "Received empty video information.") self).
Proof.
  intros Hd. unfold on_fetch_finished.
  destruct obj as [d|]; [rewrite (Hd d) by done|];
    by destruct (on_fetch_error _ self).
Qed.

Lemma view_deliver_failure sig self :
  (forall d,
     sig = finished (Some d) ->
     connected <$> worker self = Some FetchSlots ->
     truthy d = false) ->
  view (fst (deliver sig self)) = view self.
Proof.
  intros Hd.
  destruct (worker self) as [[c []]|] eqn:Hw.
  - rewrite (deliver_fetch _ _ _ Hw).
    destruct sig as [line|obj|msg].
    + done.
    + rewrite on_fetch_finished_empty; [|by intros d ->; apply Hd].
      unfold with_box. by rewrite on_fetch_error_closed.
    + unfold with_box. by rewrite on_fetch_error_closed.
  - rewrite (deliver_download _ _ _ Hw).
    destruct sig as [line|obj|msg]; unfold with_box.
    + done.
    + by rewrite on_download_finished_closed.
    + by rewrite on_download_error_closed.
  - by rewrite (deliver_no_worker _ _ Hw).
Qed.

Lemma buttons_deliver_progress line self :
  buttons (fst (deliver (progress line) self)) = buttons self.
Proof. unfold deliver. by destruct (worker self) as [[c []]|]. Qed.

Section EventLoop.
Context `{Platform}.

Lemma invariant_start home : invariant (start home).
Proof.
  unfold start, init. rewrite update_ui_state_closed.
  constructor; simpl; [by left|done|done| | |done];
    unfold time_edit_ok; simpl; lia.
Qed.

Lemma idle_queue self q :
  invariant {| window := self; queued := q |} ->
  fetch_button self = true \/ download_button self = true ->
  q = [].
Proof.
  intros [_ Hb _ _ _ _] Ht. simpl in Hb.
  destruct q as [|sig q]; [done|].
  destruct Hb as [Hf Hd]; [done|]. destruct Ht; congruence.
Qed.

Lemma invariant_started self self' q cmd slot :
  invariant {| window := self; queued := q |} ->
  fetch_button self = true \/ download_button self = true ->
  cmd <> [] ->
  view self' = view self ->
  buttons self' = (false, false) ->
  worker self' = Some {| command := cmd; connected := slot |} ->
  invariant (start_worker self' q).
Proof.
  intros Hinv Hidle Hc Hv Hb Hw. unfold start_worker. rewrite Hw.
  cbn [command]. rewrite (idle_queue _ _ Hinv Hidle). cbn [app].
  destruct cmd as [|executable arguments]; [done|].
  destruct (run_shape executable arguments) as (lines & sig & -> & Ht).
  cbn [fst]. apply (invariant_controls self _ q); [done| |done|done].
  right. by exists lines, sig.
Qed.

Lemma step_invariant e s :
  invariant s -> invariant (step e s) \/ stuck (step e s).
Proof.
  intros Hinv. destruct s as [self q].
  destruct e; unfold step; cbn [window queued]; [left..|].
  - destruct (lineEnabled (url_input self)); [|done].
    by apply (invariant_frame self).
  - destruct (fetch_button self) eqn:Hf; [|done].
    destruct (decide (strip (text (url_input self)) = [])) as [Hu|Hu].
    + by rewrite (fetch_video_info_blank _ Hu).
    + rewrite (fetch_video_info_closed _ Hu).
      eapply (invariant_started self); eauto. done.
  - destruct (isEnabled (video_quality_combo self)); [|done].
    destruct (view_select_video index self).
    by apply (invariant_frame self).
  - destruct (isEnabled (audio_quality_combo self)); [|done].
    by apply (invariant_frame self).
  - destruct Hinv as [Hq Hb Hi Hs He Hr]. simpl in *.
    constructor; simpl; try done. by apply time_edit_ok_setTime.
  - destruct Hinv as [Hq Hb Hi Hs He Hr]. simpl in *.
    constructor; simpl; try done. by apply time_edit_ok_setTime.
  - by apply (invariant_frame self).
  - apply (invariant_frame self); [|  |done]; by destruct directory.
  - destruct (download_button self) eqn:Hd; [|done].
    destruct (download_clip self) as [self' o] eqn:Hc.
    destruct o as [box|cmd|e].
    + destruct (view_download_not_started _ _ _ Hc); [done|].
      by apply (invariant_frame self).
    + pose proof (download_clip_state _ _ _ Hc) as ->.
      destruct (download_clip_started _ _ _ Hc) as (? & ? & _ & Hs & _).
      destruct (download_formats_started _ _ _ _ Hs)
        as (_ & ? & ? & ? & ? & _ & _ & _ & _ & ->).
      eapply (invariant_started self); eauto. done.
    + destruct (view_download_not_started _ _ _ Hc); [done|].
      by apply (invariant_frame self).
  - destruct q as [|sig rest]; [by left|].
    pose proof (inv_queue _ Hinv) as Hq. simpl in Hq.
    destruct (one_execution_tail _ _ Hq) as [Hrest Hlast].
    assert ((exists d,
               sig = finished (Some d)
               /\ connected <$> worker self = Some FetchSlots
               /\ truthy d = true)
            \/ (forall d,
                  sig = finished (Some d) ->
                  connected <$> worker self = Some FetchSlots ->
                  truthy d = false)) as [(d & -> & Hw & Hd)|Hn].
    { destruct sig as [line|[d|]|msg]; try (right; by intros ? [=]).
      destruct (worker self) as [[c []]|]; try (right; by intros ? _ [=]).
      destruct (truthy d) eqn:Hd; [left; by exists d|right].
      by intros ? [= <-] _. }
    + rewrite Hlast by done.
      destruct (worker self) as [[c slot]|] eqn:Hw'; [|done].
      injection Hw as ->. rewrite (deliver_fetch _ _ _ Hw').
      destruct (fits_int (default 0 (duration d))) eqn:Hfit.
      * left. rewrite (on_fetch_finished_closed _ _ Hd Hfit).
        by eapply invariant_populated.
      * right. rewrite (on_fetch_finished_overflow _ _ Hd Hfit).
        destruct (inv_busy _ Hinv) as [Hf Hdl]; [done|].
        by split_and!.
    + left.
      apply (invariant_controls self _ (sig :: rest)); [|done| |done].
      * by apply view_deliver_failure.
      * intros Hne. destruct sig as [line| |]; [|by destruct Hne; auto..].
        rewrite buttons_deliver_progress.
        destruct (inv_busy _ Hinv) as [Hf Hdl]; [done|].
        simpl in Hf, Hdl. unfold buttons. by rewrite Hf, Hdl.
Qed.

Lemma stuck_frame self self' q :
  buttons self' = buttons self ->
  video_info self' = video_info self ->
  stuck {| window := self; queued := q |} ->
  stuck {| window := self'; queued := q |}.
Proof.
  unfold buttons, stuck. cbn [window queued].
  intros [= Hf Hd] Hi. by rewrite Hf, Hd, Hi.
Qed.

(** Once stuck, always stuck: no control that is still enabled changes
    the buttons, the queue or the metadata. *)
Lemma step_stuck e s : stuck s -> stuck (step e s).
Proof.
  destruct s as [self q]. intros Hs.
  pose proof Hs as (Hq & Hf & Hd & Hi). cbn [window queued] in *. subst q.
  destruct e; unfold step; cbn [window queued]; rewrite ?Hf, ?Hd; try done.
  - by destruct (lineEnabled (url_input self)).
  - destruct (isEnabled (video_quality_combo self)); [|done].
    destruct (view_select_video index self) as [Hb Hv].
    apply (stuck_frame self); [done| |done].
    unfold view in Hv. by injection Hv.
  - by destruct (isEnabled (audio_quality_combo self)).
  - apply (stuck_frame self); [| |done]; by destruct directory.
Qed.

Lemma run_events_invariant events s :
  invariant s \/ stuck s ->
  invariant (run_events events s) \/ stuck (run_events events s).
Proof.
  revert s. induction events as [|e events IH]; intros s Hs; [done|].
  simpl. apply IH. destruct Hs as [Hs|Hs].
  - by apply step_invariant.
  - right. by apply step_stuck.
Qed.

Lemma reachable events home :
  invariant (run_events events (start home))
  \/ stuck (run_events events (start home)).
Proof. apply run_events_invariant. left. apply invariant_start. Qed.

End EventLoop.

(** When an exception leaves [download_formats]. *)
Lemma download_formats_uncaught f self self' e :
  download_formats f self = (self', Uncaught e) ->
  time (start_time_edit self) < time (end_time_edit self)
  /\ (video_info self = None
      \/ exists info,
           video_info self = Some info
           /\ e = OtherError
                   (str "argument of type 'NoneType' is not iterable")
           /\ (f = None \/ webpage_url info = None)).
Proof.
  unfold download_formats, output_template. rewrite Z.geb_leb.
  destruct (_ <=? _) eqn:Ht; [done|]. apply Z.leb_gt in Ht.
  split; [done|].
  destruct (video_info self) as [info|]; [|by left].
  right. exists info.
  destruct (bool_decide _), f as [spec|], (webpage_url info) as [url|];
    simplify_eq; auto.
Qed.

Lemma download_formats_raises f self info :
  time (start_time_edit self) < time (end_time_edit self) ->
  video_info self = Some info ->
  f = None \/ webpage_url info = None ->
  exists self',
    download_formats f self
    = (self',
       Uncaught
         (OtherError (str "argument of type 'NoneType' is not iterable"))).
Proof.
  intros Ht Hi Hn. destruct (output_template_info _ _ Hi) as [template Ho].
  unfold download_formats. rewrite Z.geb_leb.
  apply Z.leb_gt in Ht. rewrite Ht, Ho, Hi.
  destruct f as [spec|], (webpage_url info) as [url|]; eauto.
  by destruct Hn.
Qed.

Lemma download_clip_uncaught self self' e :
  download_clip self = (self', Uncaught e) ->
  time (start_time_edit self) < time (end_time_edit self)
  /\ exists data,
       currentData (video_quality_combo self) = Some data
       /\ (video_info self = None
           \/ exists info,
                video_info self = Some info
                /\ e = OtherError
                        (str "argument of type 'NoneType' is not iterable")
                /\ (webpage_url info = None
                    \/ (merged data = true /\ id data = None))).
Proof.
  unfold download_clip.
  destruct (currentData (video_quality_combo self)) as [data|]; [|done].
  destruct (merged data) eqn:Hm.
  - intros [Ht Hf]%download_formats_uncaught. split; [done|].
    exists data. split; [done|].
    destruct Hf as [Hf|(info & Hi & He & Hf)]; [by left|right].
    exists info. split_and!; [done|done|]. destruct Hf; auto.
  - destruct (mjoin _) as [[|c a]|]; try done.
    intros [Ht Hf]%download_formats_uncaught. split; [done|].
    exists data. split; [done|].
    destruct Hf as [Hf|(info & Hi & He & [Hf|Hf])]; [by left|done|right].
    exists info. auto.
Qed.

Section Sessions.
Context `{Platform}.

(** X9: at any time of a session the queue holds at most the rest of one
    execution (line signals, then one terminal signal), and while it is
    not empty both buttons are disabled, so that a click on "Fetch Info" or
    on the download button starts nothing: no worker is started while
    another one has signals to deliver. *)
Theorem session_one_execution_at_a_time events home :
  let s := run_events events (start home) in
  one_execution (queued s)
  /\ (queued s <> [] ->
      fetch_button (window s) = false
      /\ download_button (window s) = false
      /\ step ClickFetch s = s
      /\ step ClickDownload s = s).
Proof.
  intros s.
  destruct (reachable events home) as [[Hq Hb _ _ _ _]|(Hq & _)];
    fold s in Hq; [|rewrite Hq; split; [by left|done]].
  fold s in Hb.
  split; [done|]. intros Hne. destruct (Hb Hne) as [Hf Hd].
  split_and!; [done|done| |]; unfold step; by rewrite ?Hf, ?Hd.
Qed.

(** X10: at any time of a session, while no metadata is stored nothing is
    selectable, so a download request is turned down with "Please select a
    video quality."; and download_clip never fails on the missing metadata.
    The only exception that leaves it is the TypeError of the command
    echo, and it does so exactly when the request has passed the selection
    and time checks and the command holds None: the metadata has no
    webpage_url, or the selected video entry is merged and has no
    format_id. *)
Theorem session_metadata_before_selection events home :
  let self := window (run_events events (start home)) in
  let type_error :=
    OtherError (str "argument of type 'NoneType' is not iterable") in
  (video_info self = None ->
   download_clip self
   = (self, Rejected (warning (str "Selection Error")
                        (str "Please select a video quality."))))
  /\ (forall self' e,
        download_clip self = (self', Uncaught e) ->
        e = type_error
        /\ time (start_time_edit self) < time (end_time_edit self)
        /\ exists data info,
             currentData (video_quality_combo self) = Some data
             /\ video_info self = Some info
             /\ (webpage_url info = None
                 \/ (merged data = true /\ id data = None)))
  /\ (forall data info,
        currentData (video_quality_combo self) = Some data ->
        video_info self = Some info ->
        time (start_time_edit self) < time (end_time_edit self) ->
        (merged data = true
         /\ (id data = None \/ webpage_url info = None))
        \/ (merged data = false /\ webpage_url info = None
            /\ exists a,
                 mjoin (currentData (audio_quality_combo self)) = Some a
                 /\ a <> []) ->
        exists self', download_clip self = (self', Uncaught type_error)).
Proof.
  intros self type_error.
  assert (video_info self = None ->
          currentData (video_quality_combo self) = None) as Hn.
  { intros Hv.
    destruct (reachable events home) as [[_ _ Hi _ _ _]|(_ & _ & _ & Hi)];
      fold self in Hi; [|rewrite Hv in Hi; by destruct Hi].
    destruct (Hi Hv) as [Hits _].
    unfold currentData, itemData. rewrite Hits.
    destruct (_ <? 0); [done|]. by rewrite lookup_nil. }
  split_and!.
  - intros Hv. by apply download_clip_unselected, Hn.
  - intros self' e Hd.
    destruct (download_clip_uncaught _ _ _ Hd)
      as (Ht & data & Hc & [Hv|(info & Hi & He & Hw)]).
    + rewrite (Hn Hv) in Hc. done.
    + split_and!; [done|done|]. by exists data, info.
  - intros data info Hc Hi Ht [(Hm & Hw)|(Hm & Hw & a & Ha & Hne)].
    + rewrite (download_clip_merged _ _ Hc Hm).
      apply (download_formats_raises _ _ info); [done|done|].
      destruct Hw; auto.
    + rewrite (download_clip_unmerged _ _ _ Hc Hm Ha Hne).
      apply (download_formats_raises _ _ info); auto.
Qed.

(** X11: at any time of a session, a download that starts (the download
    button is enabled, and the request passes the checks) has its clip
    range inside the stored video: 0 <= start < end <= duration (the
    duration taken modulo one day, as the time fields hold it), and the
    section argument is "*<start>-<end>" with both times as HH:mm:ss. *)
Theorem session_clip_within_duration events home self' cmd :
  let self := window (run_events events (start home)) in
  download_button self = true ->
  download_clip self = (self', Started cmd) ->
  exists info,
    video_info self = Some info
    /\ 0 <= time (start_time_edit self) < time (end_time_edit self)
    /\ time (end_time_edit self) <= duration_time info <= 86399
    /\ cmd !! 4%nat
       = Some (str "*" ++ toString (time (start_time_edit self))
               ++ str "-" ++ toString (time (end_time_edit self))).
Proof.
  intros self Hb Hd.
  destruct (reachable events home) as [[_ _ _ Hs He Hr]|(_ & _ & Hn & _)];
    [|fold self in Hn; congruence].
  fold self in Hs, He, Hr.
  destruct (download_clip_started _ _ _ Hd) as (? & ? & _ & Hf & _).
  destruct (download_formats_started _ _ _ _ Hf)
    as (Ht & ? & ? & info & ? & _ & _ & Hi & _ & ->).
  exists info. destruct (Hr info Hi) as [_ Hm].
  pose proof (duration_time_range info).
  unfold time_edit_ok in Hs, He. split_and!; try done; lia.
Qed.

End Sessions.

(** ** Requests and their round trips *)

Lemma gui_eta (self : Gui) :
  self
  = {| video_info := video_info self; url_input := url_input self;
       fetch_button := fetch_button self; title_label := title_label self;
       duration_label := duration_label self;
       video_quality_combo := video_quality_combo self;
       audio_quality_combo := audio_quality_combo self;
       start_time_edit := start_time_edit self;
       end_time_edit := end_time_edit self;
       output_path_input := output_path_input self;
       filename_input := filename_input self;
       download_button := download_button self;
       log_output := log_output self; worker := worker self |}.
Proof. by destruct self. Qed.

Lemma deliver_all_app signals1 signals2 self :
  deliver_all (signals1 ++ signals2) self
  = deliver_all signals2 (deliver_all signals1 self).
Proof. apply fold_left_app. Qed.

Lemma deliver_progress line self :
  is_Some (worker self) ->
  fst (deliver (progress line) self) = log_append line self.
Proof. intros [[c []] Hw]; unfold deliver; by rewrite Hw. Qed.

Lemma deliver_all_progress lines self :
  is_Some (worker self) ->
  deliver_all (map progress lines) self
  = set_log_output (log_output self ++ lines) self.
Proof.
  revert self. induction lines as [|line lines IH]; intros self Hw.
  - simpl. rewrite app_nil_r. by destruct self.
  - change (deliver_all (map progress (line :: lines)) self)
      with (deliver_all (map progress lines)
              (fst (deliver (progress line) self))).
    rewrite (deliver_progress _ _ Hw), IH by done.
    destruct self. window_cbn. by rewrite <- app_assoc.
Qed.

(** X4: fetch_video_info turns down a URL field that is empty or holds
    only whitespace with the input warning and changes nothing; for any
    other URL it starts a worker on yt-dlp --dump-json <trimmed URL>, a
    command that is always in JSON mode, replaces the log by the one line
    "Fetching info for: <URL>...", and disables the URL field, both
    buttons and both boxes, leaving the stored metadata, selections and
    time fields as they were. *)
Theorem fetch_video_info_request self :
  let url := strip (text (url_input self)) in
  let command := [str "yt-dlp"; str "--dump-json"; url] in
  (url = [] ->
   fetch_video_info self
   = (self, Some (warning (str "Input Error")
                    (str "Please enter a video URL."))))
  /\ (url <> [] ->
      exists self',
        fetch_video_info self = (self', None)
        /\ worker self'
           = Some {| command := command; connected := FetchSlots |}
        /\ is_json_dump command = true
        /\ log_output self' = [str "Fetching info for: " ++ url ++ str "..."]
        /\ buttons self' = (false, false)
        /\ lineEnabled (url_input self') = false
        /\ isEnabled (video_quality_combo self') = false
        /\ isEnabled (audio_quality_combo self') = false
        /\ stored self' = stored self
        /\ view self' = view self).
Proof.
  intros url command. split.
  - apply fetch_video_info_blank.
  - intros Hu. eexists. split; [by apply fetch_video_info_closed|].
    split_and!; try done.
    apply is_json_dump_spec. right.
    apply list_elem_of_further, list_elem_of_here.
Qed.

(** X5: a fetch whose output holds, after any other text, an object that
    json.loads parses to a non-empty dict with a duration that fits a C
    int: once the signals of the worker
    are delivered the metadata is stored, the log reads the "Fetching"
    line, the output lines stripped, then "Successfully parsed video
    information!", both buttons are enabled again and the boxes hold the
    formats of that metadata; the exit status plays no part. *)
Theorem fetch_round_trip `{Platform} self process return_code pre rest d :
  let url := strip (text (url_input self)) in
  let command := [str "yt-dlp"; str "--dump-json"; url] in
  let final :=
    deliver_all (fst (run command)) (fst (fetch_video_info self)) in
  url <> [] ->
  Popen command = Return process ->
  wait process = Return return_code ->
  concat (stdout process) = pre ++ brace :: rest ->
  brace ∉ pre ->
  json_loads (brace :: rest) = Parsed d ->
  truthy d = true ->
  fits_int (default 0 (duration d)) = true ->
  video_info final = Some d
  /\ log_output final
     = [str "Fetching info for: " ++ url ++ str "..."]
       ++ map strip (stdout process)
       ++ [nl ++ str "Successfully parsed video information!"]
  /\ buttons final = (true, true)
  /\ lineEnabled (url_input final) = true
  /\ video_quality_combo final
     = video_quality_combo (fst (on_fetch_finished (Some d) self))
  /\ items (audio_quality_combo final)
     = items (audio_quality_combo (fst (on_fetch_finished (Some d) self))).
Proof.
  intros url command final Hu HP HW Hout Hpre Hl Hd Hfit. subst final.
  rewrite (run_exited _ _ _ HP HW). cbn [fst].
  assert (is_json_dump command = true) as ->.
  { apply is_json_dump_spec. right.
    apply list_elem_of_further, list_elem_of_here. }
  unfold classify.
  assert (from_first brace (concat (stdout process)) = Some (brace :: rest))
    as -> by (apply from_first_Some; by exists pre, rest).
  rewrite Hl. cbn [signal_of].
  rewrite (fetch_video_info_closed _ Hu). cbn [fst]. fold url.
  rewrite deliver_all_app, <- (map_map strip progress), deliver_all_progress
    by done.
  cbn [deliver_all fold_left].
  erewrite deliver_fetch by done.
  rewrite !(on_fetch_finished_closed _ _ Hd Hfit). by cbn [fst].
Qed.

(** X6: an error signal, or a finished signal with nothing or with an
    empty dict, delivered to the slots of a fetch: the message is logged
    after "ERROR: " and shown in a critical box, the URL field and the
    fetch button are enabled again, and the download button and both boxes
    are disabled although the metadata and selections of an earlier fetch
    are still stored. *)
Theorem fetch_failure_disables_download self sig message c :
  worker self = Some {| command := c; connected := FetchSlots |} ->
  sig = error message
  \/ (message = str "Received empty video information."
      /\ exists obj,
           sig = finished obj /\ forall d, obj = Some d -> truthy d = false) ->
  exists self',
    deliver sig self
    = (self',
       Returns
         (Some (critical (str "Error")
                  (str "Failed to fetch video info." ++ nl ++ nl
                   ++ message))))
    /\ log_output self'
       = log_output self ++ [nl ++ str "ERROR: " ++ message]
    /\ buttons self' = (true, false)
    /\ lineEnabled (url_input self') = true
    /\ isEnabled (video_quality_combo self') = false
    /\ isEnabled (audio_quality_combo self') = false
    /\ stored self' = stored self
    /\ view self' = view self.
Proof.
  intros Hw Hs. rewrite (deliver_fetch _ _ _ Hw).
  assert (match sig with
          | progress line => (update_log line self, Returns None)
          | finished obj => on_fetch_finished obj self
          | error msg => with_box (on_fetch_error msg self)
          end = with_box (on_fetch_error message self)) as ->.
  { destruct Hs as [->|(-> & obj & -> & Hd)]; [done|].
    by apply on_fetch_finished_empty. }
  unfold with_box. rewrite on_fetch_error_closed. cbn [fst snd].
  by eexists.
Qed.

(** X7: after a fetch that returned a non-empty dict whose duration fits a
    C int the handler returns and no box is shown, both
    buttons, the URL field and the video box are enabled, each box has its
    first entry current (or none when it is empty), and the audio box is
    enabled exactly when there is no video entry or the first video entry
    is not merged. *)
Theorem fetch_default_selection d self :
  truthy d = true ->
  fits_int (default 0 (duration d)) = true ->
  let self' := fst (on_fetch_finished (Some d) self) in
  let videos := items (video_quality_combo self') in
  let audios := items (audio_quality_combo self') in
  snd (on_fetch_finished (Some d) self) = Returns None
  /\ video_info self' = Some d
  /\ buttons self' = (true, true)
  /\ lineEnabled (url_input self') = true
  /\ isEnabled (video_quality_combo self') = true
  /\ currentIndex (video_quality_combo self')
     = match videos with [] => -1 | _ => 0 end
  /\ currentIndex (audio_quality_combo self')
     = match audios with [] => -1 | _ => 0 end
  /\ currentData (video_quality_combo self') = snd <$> head videos
  /\ currentData (audio_quality_combo self') = snd <$> head audios
  /\ isEnabled (audio_quality_combo self')
     = match head videos with
       | None => true
       | Some (_, data) => negb (merged data)
       end.
Proof.
  intros Hd Hfit. rewrite (on_fetch_finished_closed _ _ Hd Hfit).
  cbn [fst snd].
  unfold populated. set (videos := map video_item _).
  set (audios := map audio_item _).
  window_cbn. unfold filled, buttons, currentData, itemData. window_cbn.
  split_and!; try done.
  - by destruct videos.
  - by destruct audios.
  - by destruct videos as [|[? ?] ?].
Qed.

(** X8: after a fetch that returned a non-empty dict, with time fields in
    their range.  When the duration fits a C int the start time is
    00:00:00, the maximum of both fields is the duration (modulo one day),
    and the end time is the duration, unless the maximum the end field had
    before is smaller: then it is that maximum, because the time is set
    before the maximum is raised.  When the duration does not fit, the
    OverflowError of addSecs leaves the handler: the metadata, the title
    and the log line are written, and the time fields, the boxes and the
    controls are as they were. *)
Theorem fetch_resets_clip_range d self :
  truthy d = true ->
  time_edit_ok (start_time_edit self) ->
  time_edit_ok (end_time_edit self) ->
  let seconds := default 0 (duration d) in
  let self' := fst (on_fetch_finished (Some d) self) in
  (- 2 ^ 31 <= seconds < 2 ^ 31 ->
   snd (on_fetch_finished (Some d) self) = Returns None
   /\ time (start_time_edit self') = 0
   /\ maximumTime (start_time_edit self') = seconds mod 86400
   /\ maximumTime (end_time_edit self') = seconds mod 86400
   /\ time (end_time_edit self')
      = Z.min (seconds mod 86400) (maximumTime (end_time_edit self))
   /\ time_edit_ok (start_time_edit self')
   /\ time_edit_ok (end_time_edit self'))
  /\ (seconds < - 2 ^ 31 \/ 2 ^ 31 <= seconds ->
      snd (on_fetch_finished (Some d) self) = Overflows
      /\ video_info self' = Some d
      /\ start_time_edit self' = start_time_edit self
      /\ end_time_edit self' = end_time_edit self
      /\ video_quality_combo self' = video_quality_combo self
      /\ audio_quality_combo self' = audio_quality_combo self
      /\ buttons self' = buttons self
      /\ url_input self' = url_input self
      /\ duration_label self' = duration_label self
      /\ title_label self'
         = str "Video Title: " ++ default (str "N/A") (title d)
      /\ log_output self'
         = log_output self
           ++ [nl ++ str "Successfully parsed video information!"]).
Proof.
  intros Hd Hs He seconds self'. subst self'. split.
  - intros Hfit%fits_int_spec.
    rewrite (on_fetch_finished_closed _ _ Hd Hfit). cbn [fst snd].
    pose proof (duration_time_range d) as Hr.
    unfold populated. cbn [start_time_edit end_time_edit].
    unfold duration_time in *. fold seconds in Hr |- *.
    generalize dependent (seconds mod 86400). intros m Hr.
    split_and!; try done;
      try (by apply time_edit_ok_setTime, time_edit_ok_setMaximumTime);
      try (by apply time_edit_ok_setMaximumTime, time_edit_ok_setTime);
      unfold time_edit_ok, setTime, setMaximumTime, bound in *; simpl; lia.
  - intros Hover.
    assert (fits_int seconds = false) as Hfit.
    { apply not_true_is_false. rewrite fits_int_spec. lia. }
    by rewrite (on_fetch_finished_overflow _ _ Hd Hfit).
Qed.

Lemma download_formats_rejected formats_to_dl self self' box :
  download_formats formats_to_dl self = (self', Rejected box) -> self' = self.
Proof.
  unfold download_formats.
  destruct (_ >=? _); [by intros [= <- _]|].
  destruct (output_template self); [|done].
  destruct (video_info self) as [info|]; [|done].
  destruct formats_to_dl; [destruct (webpage_url info)|]; done.
Qed.

Lemma download_clip_rejected self self' box :
  download_clip self = (self', Rejected box) -> self' = self.
Proof.
  unfold download_clip.
  destruct (currentData (video_quality_combo self)) as [data|];
    [|by intros [= <- _]].
  destruct (merged data); [apply download_formats_rejected|].
  destruct (mjoin _) as [[|c a]|]; try by intros [= <- _].
  apply download_formats_rejected.
Qed.

(** X12: what download_clip leaves behind.  A rejected request leaves the
    window as it was; a request that fails on the command echo has logged
    two lines and nothing else; a started one has logged the four lines of
    the command echo, holds the worker connected to the download slots, and
    has disabled the URL field, both buttons and both boxes; the metadata,
    the selections and the time fields are the same in every case. *)
Theorem download_clip_effects self :
  let self' := fst (download_clip self) in
  stored self' = stored self
  /\ view self' = view self
  /\ output_path_input self' = output_path_input self
  /\ filename_input self' = filename_input self
  /\ match snd (download_clip self) with
     | Rejected _ => self' = self
     | Uncaught _ =>
         self' = self
         \/ (log_output self'
             = log_output self
               ++ [nl ++ repeat 61%N 50;
                   str "Starting download with command:"]
             /\ buttons self' = buttons self
             /\ worker self' = worker self)
     | Started cmd =>
         worker self' = Some {| command := cmd; connected := DownloadSlots |}
         /\ log_output self'
            = log_output self
              ++ [nl ++ repeat 61%N 50;
                  str "Starting download with command:";
                  join (str " ") (map quote_arg cmd);
                  repeat 61%N 50 ++ nl]
         /\ buttons self' = (false, false)
         /\ lineEnabled (url_input self') = false
         /\ isEnabled (video_quality_combo self') = false
         /\ isEnabled (audio_quality_combo self') = false
     end.
Proof.
  intros self'. subst self'.
  destruct (download_clip self) as [self' o] eqn:Hd. cbn [fst snd].
  destruct o as [box|cmd|e].
  - by rewrite (download_clip_rejected _ _ _ Hd).
  - by rewrite (download_clip_state _ _ _ Hd).
  - destruct (download_clip_not_started _ _ _ Hd) as [-> | ->];
      [done|by split_and!; try left|].
    split_and!; try done. right.
    split_and!; try done. window_cbn. by rewrite <- app_assoc.
Qed.

Lemma last_ext_suffix (name : pystr) : last (name ++ ext_suffix) = Some 115%N.
Proof.
  change ext_suffix with (str ".%(ext)" ++ [115%N]).
  by rewrite app_assoc, last_snoc.
Qed.

Lemma os_path_join_suffix a b :
  exists prefix, os_path_join a b = prefix ++ b.
Proof.
  unfold os_path_join. destruct (startswith slash b).
  - by exists [].
  - destruct (_ || _); [by exists a|]. exists (a ++ [slash]).
    by rewrite <- app_assoc.
Qed.

Lemma output_template_last self template :
  output_template self = Return template -> last template = Some 115%N.
Proof.
  unfold output_template.
  destruct (bool_decide _); [destruct (video_info self); [|done]|];
    intros [= <-];
    match goal with
    | |- context [os_path_join ?a ?b] =>
        destruct (os_path_join_suffix a b) as [prefix ->]
    end;
    by rewrite app_assoc, last_ext_suffix.
Qed.

(** X13: a started download is in the JSON mode of the runner exactly when
    its format specification or the page address of the metadata is the
    string "-j" or "--dump-json"; no other argument of the command can
    be: in every other case the outcome of the download follows the exit
    status. *)
Theorem download_json_mode self self' cmd :
  download_clip self = (self', Started cmd) ->
  exists formatSpec url,
    cmd !! 2%nat = Some formatSpec
    /\ cmd !! 10%nat = Some url
    /\ length cmd = 11%nat
    /\ (is_json_dump cmd = true
        <-> formatSpec = str "-j" \/ formatSpec = str "--dump-json"
            \/ url = str "-j" \/ url = str "--dump-json").
Proof.
  intros Hd.
  destruct (download_clip_started _ _ _ Hd) as (data & spec' & _ & Hf & _).
  destruct (download_formats_started _ _ _ _ Hf)
    as (_ & spec & template & info & url & _ & Ho & _ & _ & ->).
  exists spec, url. split_and!; [done|done|done|].
  apply output_template_last in Ho.
  generalize (toString (time (start_time_edit self))).
  generalize (toString (time (end_time_edit self))).
  intros end_time start_time.
  rewrite is_json_dump_spec. unfold download_command.
  rewrite !elem_of_cons, !elem_of_nil.
  assert (template <> str "-j" /\ template <> str "--dump-json") as [Ht1 Ht2].
  { split; intros ->; vm_compute in Ho; discriminate Ho. }
  split.
  - intros [Hj|Hj];
      repeat (destruct Hj as [Hj|Hj];
              try (vm_compute in Hj; discriminate Hj));
      try done; subst; auto.
  - intros [-> | [-> | [-> | ->]]]; [left|right|left|right]; auto 20.
Qed.

(** X14: a started download that is not in JSON mode, once its process has
    ended and its signals are delivered: the log holds the command echo,
    the output lines stripped, then "Download completed successfully!" for
    exit status 0 and "DOWNLOAD ERROR: Process finished with error code
    <status>" for any other; both buttons, the URL field and both boxes
    are enabled (the audio box too, whatever video entry is selected), and
    the metadata, the selections and the time fields are as before the
    download. *)
Theorem download_round_trip `{Platform} self self' cmd process return_code :
  download_clip self = (self', Started cmd) ->
  is_json_dump cmd = false ->
  Popen cmd = Return process ->
  wait process = Return return_code ->
  let final := deliver_all (fst (run cmd)) self' in
  log_output final
  = log_output self ++ download_log cmd ++ map strip (stdout process)
    ++ [if return_code =? 0
        then nl ++ str "Download completed successfully!"
        else nl ++ str "DOWNLOAD ERROR: "
             ++ (str "Process finished with error code "
                 ++ str_of_int return_code)]
  /\ buttons final = (true, true)
  /\ lineEnabled (url_input final) = true
  /\ isEnabled (video_quality_combo final) = true
  /\ isEnabled (audio_quality_combo final) = true
  /\ stored final = stored self
  /\ view final = view self.
Proof.
  intros Hd Hj HP HW final. subst final.
  rewrite (run_exited _ _ _ HP HW), Hj. cbn [fst].
  rewrite (download_clip_state _ _ _ Hd).
  rewrite deliver_all_app, <- (map_map strip progress), deliver_all_progress
    by done.
  cbn [deliver_all fold_left]. unfold classify.
  erewrite deliver_download by done.
  destruct (return_code =? 0); cbn [signal_of]; unfold with_box;
    rewrite ?on_download_finished_closed, ?on_download_error_closed;
    cbn [fst]; split_and!; try done;
    window_cbn; by rewrite <- !app_assoc.
Qed.

(** X15: with a file name field that is empty or blank, the output
    template is the output directory, a slash unless the directory is
    empty or ends with one, the title with the forbidden characters
    deleted ("video" when the metadata has no title), and ".%(ext)s"; the
    name holds no slash, so the template starts with the output directory
    whatever the title is. *)
Theorem default_template_in_output_directory self info :
  video_info self = Some info ->
  strip (filename_input self) = [] ->
  let directory := output_path_input self in
  let name := re_sub_forbidden (default (str "video") (title info)) in
  let separator :=
    if bool_decide (directory = []) || endswith slash directory then []
    else str "/" in
  output_template self
  = Return (directory ++ separator ++ name ++ str ".%(ext)s")
  /\ (forall c, c ∈ forbidden -> c ∉ name)
  /\ (slash ∉ name)
  /\ name = filter (fun c => c ∉ forbidden) (default (str "video") (title info)).
Proof.
  intros Hi Hf directory name separator.
  assert (forall c, c ∈ forbidden -> c ∉ name) as Hname.
  { intros c Hc. unfold name. rewrite re_sub_forbidden_spec.
    rewrite list_elem_of_filter. tauto. }
  split_and!; [|done| |apply re_sub_forbidden_spec].
  - unfold output_template. rewrite Hi, (bool_decide_eq_true_2 _ Hf).
    fold directory name. unfold os_path_join.
    assert (startswith slash (name ++ ext_suffix) = false) as ->.
    { apply startswith_app; [|done].
      destruct name as [|c name'] eqn:E; [done|]. simpl.
      apply N.eqb_neq. intros ->. apply (Hname slash).
      - unfold forbidden. apply list_elem_of_further, list_elem_of_here.
      - left. }
    subst separator. by destruct (_ || _).
  - apply Hname. unfold forbidden.
    apply list_elem_of_further, list_elem_of_here.
Qed.

(** X18: the handler of a change of the video selection writes nothing but
    the enabled flag of the audio box; for an index that names no entry
    (negative, or past the last entry) it leaves the window as it is. *)
Theorem video_change_handler_frame index self :
  (exists b,
     _on_video_quality_changed index self
     = set_audio_quality_combo
         (setEnabled b (audio_quality_combo self)) self)
  /\ (index < 0
      \/ Z.of_nat (length (items (video_quality_combo self))) <= index ->
      _on_video_quality_changed index self = self).
Proof.
  destruct (on_video_quality_changed_closed index self) as (b & Hb & Hn & _).
  split; [by exists b|].
  intros Hi. rewrite Hb, Hn.
  - by destruct self as [? ? ? ? ? ? [? ? ?] ? ? ? ? ? ? ?].
  - unfold itemData. destruct (index <? 0) eqn:E; [done|].
    apply Z.ltb_ge in E. destruct Hi as [Hi|Hi]; [lia|].
    rewrite lookup_ge_None_2; [done|lia].
Qed.

(** ** Start-up *)

Lemma is_prefix_spec needle s :
  is_prefix needle s = true <-> exists post, s = needle ++ post.
Proof.
  revert s. induction needle as [|x needle IH]; intros s; simpl.
  - split; [by exists s|done].
  - destruct s as [|y s].
    + split; [done|]. by intros [post [=]].
    + rewrite andb_true_iff, N.eqb_eq, IH. split.
      * intros [-> [post ->]]. by exists post.
      * intros [post [= -> ->]]. split; [done|by exists post].
Qed.

Lemma occurs_spec needle s : occurs needle s = true <-> substring needle s.
Proof.
  unfold substring. induction s as [|y s IH]; simpl.
  - rewrite orb_false_r, is_prefix_spec. split.
    + intros [post E]. by exists [], post.
    + intros (pre & post & E). destruct pre; [by exists post|done].
  - rewrite orb_true_iff, is_prefix_spec, IH. split.
    + intros [[post E]|(pre & post & ->)].
      * by exists [], post.
      * by exists (y :: pre), post.
    + intros (pre & post & E). destruct pre as [|z pre].
      * left. by exists post.
      * right. injection E as -> ->. by exists pre, post.
Qed.

Lemma join_substring sep (l : list pystr) x :
  x ∈ l -> substring x (join sep l).
Proof.
  induction l as [|y l IH]; [by intros ?%elem_of_nil|].
  intros [->|Hx]%elem_of_cons.
  - destruct l as [|z l]; simpl.
    + exists [], []. by rewrite app_nil_r.
    + by exists [], (sep ++ join sep (z :: l)).
  - destruct (IH Hx) as (pre & post & E).
    destruct l as [|z l]; [by apply elem_of_nil in Hx|].
    change (join sep (y :: z :: l)) with (y ++ sep ++ join sep (z :: l)).
    rewrite E. exists (y ++ sep ++ pre), post. by rewrite <- !app_assoc.
Qed.

Section StartupChecks.
Context `{SearchPath}.

(** X16: check_dependencies lists exactly the tools among yt-dlp and
    ffmpeg that shutil.which does not find, yt-dlp first; the main block
    shows the window when both are found and otherwise shows the dialog
    for the missing ones and exits with status 1. *)
Theorem main_requires_both_tools home :
  check_dependencies
  = filter (fun name => which name = false) [str "yt-dlp"; str "ffmpeg"]
  /\ (main home = Shows (init home)
      <-> which (str "yt-dlp") = true /\ which (str "ffmpeg") = true)
  /\ (which (str "yt-dlp") = false \/ which (str "ffmpeg") = false ->
      main home
      = Exits (show_dependency_error_dialog check_dependencies) 1).
Proof.
  unfold main, check_dependencies. rewrite !filter_cons, filter_nil.
  destruct (which (str "yt-dlp")), (which (str "ffmpeg")); simpl;
    split_and!; try done; try (split; [done|by intros [? ?]]);
    by intros [?|?].
Qed.

End StartupChecks.

(** X17: the dependency dialog names, between back quotes, every tool of
    the list it is given, and its detailed text holds the yt-dlp
    installation commands exactly when "yt-dlp" is in the list and the
    ffmpeg installation command exactly when "ffmpeg" is. *)
Theorem dependency_dialog_names_missing missing_deps :
  let dialog := show_dependency_error_dialog missing_deps in
  (forall dep,
     dep ∈ missing_deps ->
     substring (str "`" ++ dep ++ str "`") (dialogText dialog))
  /\ (substring (str "sudo chmod a+rx /usr/local/bin/yt-dlp")
        (detailedText dialog)
      <-> str "yt-dlp" ∈ missing_deps)
  /\ (substring (str "sudo apt update && sudo apt install ffmpeg")
        (detailedText dialog)
      <-> str "ffmpeg" ∈ missing_deps).
Proof.
  intros dialog. split.
  - intros dep Hd. unfold dialog, show_dependency_error_dialog.
    cbn [dialogText].
    destruct (join_substring (str " and ") (map quoted missing_deps)
                (quoted dep)) as (pre & post & ->).
    { apply list_elem_of_fmap. by exists dep. }
    exists (str "This application requires " ++ pre),
      (post ++ str " to function.").
    unfold quoted. by rewrite <- !app_assoc.
  - rewrite <- !elem_spec, <- !occurs_spec.
    unfold dialog, show_dependency_error_dialog. cbn [detailedText].
    destruct (elem (str "yt-dlp") missing_deps),
      (elem (str "ffmpeg") missing_deps); by vm_compute.
Qed.

(** ** The further properties at the sample sessions *)

Import Samples.

Lemma run_delivers_one_outcome_witness :
  [str "yt-dlp"; str "--dump-json"; str "u"] <> []
  /\ exists lines sig outcome,
       @run noisy_fetch [str "yt-dlp"; str "--dump-json"; str "u"]
       = (map progress lines ++ [sig], Return tt)
       /\ outcome_of sig = Some outcome
       /\ outcomes
            (fst (@run noisy_fetch [str "yt-dlp"; str "--dump-json"; str "u"]))
          = [outcome].
Proof.
  split; [discriminate|].
  apply (@run_delivers_one_outcome noisy_fetch). discriminate.
Defined.

Lemma run_launch_failure_witness :
  @run no_memory [str "yt-dlp"; str "u"]
  = ([error (str "An unexpected error occurred: [Errno 12] Cannot allocate memory")],
     Return tt).
Proof.
  apply (@run_launch_failure no_memory (str "yt-dlp") [str "u"]
           (OtherError (str "[Errno 12] Cannot allocate memory")) eq_refl).
  discriminate.
Defined.

Lemma run_failure_after_output_witness :
  outcomes (fst (@run broken_pipe [str "yt-dlp"; str "u"]))
  = [Failed (str "An unexpected error occurred: [Errno 5] Input/output error")].
Proof.
  exact (proj2 (@run_failure_after_output broken_pipe (str "yt-dlp")
                  [str "u"] _ _ eq_refl eq_refl)).
Defined.

Lemma fetch_round_trip_witness :
  let command :=
    [str "yt-dlp"; str "--dump-json"; str "https://example.com/watch"] in
  let final :=
    deliver_all (fst (@run site command)) (fst (fetch_video_info typed)) in
  video_info final = Some demo
  /\ log_output final
     = [str "Fetching info for: https://example.com/watch...";
        str "WARNING: slow"; str "{...}";
        nl ++ str "Successfully parsed video information!"].
Proof.
  intros command final.
  destruct (@fetch_round_trip site typed
              {| stdout := [str "WARNING: slow" ++ nl; str "  {...}" ++ nl];
                 wait := Return 0 |}
              0 (str "WARNING: slow" ++ nl ++ str "  ")
              (str "...}" ++ nl) demo)
    as (Hv & Hl & _);
    [discriminate|reflexivity|reflexivity|reflexivity| |reflexivity|
     reflexivity|reflexivity|].
  - apply from_first_None. reflexivity.
  - split; [exact Hv|exact Hl].
Defined.

Lemma fetch_failure_disables_download_witness :
  let fetching := fst (fetch_video_info (fetched demo)) in
  let failed :=
    fst (deliver (error (str "Could not find video information in the output."))
           (fst (fetch_video_info
                   (set_url_input
                      {| text := str "https://example.com/other";
                         lineEnabled := true |} (fetched demo))))) in
  video_info failed = Some demo /\ buttons failed = (true, false).
Proof.
  intros fetching failed.
  destruct (fetch_failure_disables_download
              (fst (fetch_video_info
                      (set_url_input
                         {| text := str "https://example.com/other";
                            lineEnabled := true |} (fetched demo))))
              (error (str "Could not find video information in the output."))
              (str "Could not find video information in the output.")
              [str "yt-dlp"; str "--dump-json";
               str "https://example.com/other"])
    as (self' & Hd & _ & Hb & _ & _ & _ & Hs & _);
    [vm_compute; reflexivity|by left|].
  subst failed. rewrite Hd. cbn [fst]. split; [|exact Hb].
  apply (f_equal (fun t => fst (fst t))) in Hs. cbn [fst stored] in Hs.
  rewrite Hs. vm_compute. reflexivity.
Defined.

Lemma fetch_default_selection_witness :
  truthy demo = true
  /\ fits_int (default 0 (duration demo)) = true
  /\ currentData (video_quality_combo (fetched demo))
     = Some {| id := Some (str "137"); merged := false |}
  /\ isEnabled (audio_quality_combo (fetched demo)) = true.
Proof.
  split; [reflexivity|]. split; [reflexivity|].
  destruct (fetch_default_selection demo (init home) eq_refl eq_refl)
    as (_ & _ & _ & _ & _ & _ & _ & Hc & _ & He).
  split.
  - etransitivity; [exact Hc|]. vm_compute. reflexivity.
  - etransitivity; [exact He|]. vm_compute. reflexivity.
Defined.

(** A duration of 125 s sets the range; a duration of 2^31 s, fetched
    next, leaves it as it is. *)
Lemma fetch_resets_clip_range_witness :
  (time (start_time_edit (fetched demo)) = 0
   /\ time (end_time_edit (fetched demo)) = 125)
  /\ (snd (on_fetch_finished (Some endless) (fetched demo)) = Overflows
      /\ end_time_edit (fst (on_fetch_finished (Some endless) (fetched demo)))
         = end_time_edit (fetched demo)).
Proof.
  assert (forall e, e = {| time := 0; minimumTime := 0; maximumTime := 86399 |}
                    \/ e = {| time := 0; minimumTime := 0; maximumTime := 125 |}
                    \/ e = {| time := 125; minimumTime := 0; maximumTime := 125 |}
                    -> time_edit_ok e) as Hok.
  { intros e [-> | [-> | ->]]; unfold time_edit_ok; simpl; lia. }
  split.
  - destruct (fetch_resets_clip_range demo (init home) eq_refl)
      as [Hfit _]; [apply Hok; by left..|].
    destruct Hfit as (_ & Hs & _ & _ & He & _); [simpl; lia|].
    split; [exact Hs|]. etransitivity; [exact He|]. reflexivity.
  - destruct (fetch_resets_clip_range endless (fetched demo) eq_refl)
      as [_ Hover].
    + apply Hok. right. left. vm_compute. reflexivity.
    + apply Hok. right. right. vm_compute. reflexivity.
    + destruct Hover as (Ho & _ & _ & He & _); [simpl; lia|].
      split; [exact Ho|exact He].
Defined.

Lemma session_clip_within_duration_witness :
  let self := window (@run_events site watch (start home)) in
  download_button self = true
  /\ (exists self' cmd, download_clip self = (self', Started cmd))
  /\ exists info,
       video_info self = Some info
       /\ 0 <= time (start_time_edit self) < time (end_time_edit self)
       /\ time (end_time_edit self) <= duration_time info <= 86399.
Proof.
  intros self.
  assert (download_clip self
          = (fst (download_clip self),
             Started (download_command (str "137+140") (str "00:00:05")
                        (str "00:00:10") (str "/home/user/Demo.%(ext)s")
                        (str "https://example.com/watch")))) as Hd.
  { vm_compute. reflexivity. }
  assert (download_button self = true) as Hb by (vm_compute; reflexivity).
  split; [exact Hb|].
  split; [exists (fst (download_clip self)); eexists; exact Hd|].
  destruct (@session_clip_within_duration site watch home _ _ Hb Hd)
    as (info & Hi & Ht & Hm & _).
  exists info. split; [exact Hi|]. split; [exact Ht|exact Hm].
Defined.

Lemma download_json_mode_witness :
  (exists self' cmd, download_clip ready_1080 = (self', Started cmd))
  /\ is_json_dump
       (download_command (str "137+140") (str "00:00:05") (str "00:00:10")
          (str "/home/user/Demo.%(ext)s") (str "https://example.com/watch"))
     = false.
Proof.
  assert (download_clip ready_1080
          = (fst (download_clip ready_1080),
             Started (download_command (str "137+140") (str "00:00:05")
                        (str "00:00:10") (str "/home/user/Demo.%(ext)s")
                        (str "https://example.com/watch")))) as Hd.
  { vm_compute. reflexivity. }
  split; [exists (fst (download_clip ready_1080)); eexists; exact Hd|].
  destruct (download_json_mode _ _ _ Hd)
    as (spec & url & Hs & Hu & _ & Hj).
  injection Hs as <-. injection Hu as <-.
  apply not_true_is_false. intros Ht. apply Hj in Ht.
  destruct Ht as [Ht|[Ht|[Ht|Ht]]]; vm_compute in Ht; discriminate Ht.
Defined.

Lemma download_round_trip_witness :
  let cmd :=
    download_command (str "137+140") (str "00:00:05") (str "00:00:10")
      (str "/home/user/Demo.%(ext)s") (str "https://example.com/watch") in
  let final :=
    deliver_all (fst (@run site cmd)) (fst (download_clip ready_1080)) in
  last (log_output final)
  = Some (nl ++ str "DOWNLOAD ERROR: Process finished with error code 1")
  /\ buttons final = (true, true).
Proof.
  intros cmd final.
  assert (download_clip ready_1080
          = (fst (download_clip ready_1080), Started cmd)) as Hd.
  { vm_compute. reflexivity. }
  destruct (@download_round_trip site _ _ _
              {| stdout := [str "[download] 100%" ++ nl]; wait := Return 1 |}
              1 Hd eq_refl eq_refl eq_refl) as (Hl & Hb & _).
  split; [|exact Hb].
  subst final. rewrite Hl, !app_assoc, last_snoc. reflexivity.
Defined.

Lemma default_template_in_output_directory_witness :
  video_info ready_720 = Some demo
  /\ strip (filename_input ready_720) = []
  /\ output_template ready_720 = Return (str "/home/user/Demo.%(ext)s").
Proof.
  assert (video_info ready_720 = Some demo) as Hi
    by (vm_compute; reflexivity).
  assert (strip (filename_input ready_720) = []) as Hf
    by (vm_compute; reflexivity).
  split; [exact Hi|]. split; [exact Hf|].
  destruct (default_template_in_output_directory _ _ Hi Hf) as (Ho & _).
  rewrite Ho. vm_compute. reflexivity.
Defined.

(** ** The controls during a session *)

Lemma controls_ok_frame self self' :
  lineEnabled (url_input self') = lineEnabled (url_input self) ->
  isEnabled (video_quality_combo self')
  = isEnabled (video_quality_combo self) ->
  buttons self' = buttons self ->
  video_info self' = video_info self ->
  worker self' = worker self ->
  controls_ok self -> controls_ok self'.
Proof.
  unfold buttons. intros Hu Hv [= Hf Hd] Hi Hw [].
  constructor; by rewrite ?Hu, ?Hv, ?Hf, ?Hd, ?Hi, ?Hw.
Qed.

Lemma controls_ok_with_controls can_download self self' :
  lineEnabled (url_input self') = true ->
  isEnabled (video_quality_combo self') = can_download ->
  buttons self' = (true, can_download) ->
  video_info self' = video_info self ->
  worker self' = worker self ->
  (can_download = true -> is_Some (video_info self)) ->
  controls_ok self -> controls_ok self'.
Proof.
  unfold buttons. intros Hu Hv [= Hf Hd] Hi Hw Hc [].
  constructor; rewrite ?Hu, ?Hv, ?Hf, ?Hd, ?Hi, ?Hw; try done.
  intros ->. auto.
Qed.

Lemma controls_ok_deliver sig self :
  controls_ok self -> controls_ok (fst (deliver sig self)).
Proof.
  intros Hok. destruct (worker self) as [[c []]|] eqn:Hw.
  - rewrite (deliver_fetch _ _ _ Hw). destruct sig as [line|obj|msg].
    + by apply (controls_ok_frame self).
    + destruct obj as [d|]; [destruct (truthy d) eqn:Hd|].
      * destruct (fits_int (default 0 (duration d))) eqn:Hfit.
        -- rewrite (on_fetch_finished_closed _ _ Hd Hfit). destruct Hok.
           by constructor.
        -- rewrite (on_fetch_finished_overflow _ _ Hd Hfit). destruct Hok.
           constructor; try done. cbn [fst overflowed download_button
             fetch_button video_info]. intros Hb. split; [|done]. tauto.
      * rewrite on_fetch_finished_empty by (by intros ? [= <-]).
        unfold with_box. rewrite on_fetch_error_closed.
        by apply (controls_ok_with_controls false self).
      * rewrite on_fetch_finished_empty by done.
        unfold with_box. rewrite on_fetch_error_closed.
        by apply (controls_ok_with_controls false self).
    + unfold with_box. rewrite on_fetch_error_closed.
      by apply (controls_ok_with_controls false self).
  - rewrite (deliver_download _ _ _ Hw).
    pose proof (ok_worker _ Hok _ Hw) as Hi.
    destruct sig as [line|obj|msg]; unfold with_box.
    + by apply (controls_ok_frame self).
    + rewrite on_download_finished_closed.
      by apply (controls_ok_with_controls true self).
    + rewrite on_download_error_closed.
      by apply (controls_ok_with_controls true self).
  - by rewrite (deliver_no_worker _ _ Hw).
Qed.

Section Controls.
Context `{Platform}.

Lemma controls_ok_start home : controls_ok (init home).
Proof. unfold init. rewrite update_ui_state_closed. by constructor. Qed.

Lemma step_controls_ok e s :
  controls_ok (window s) -> controls_ok (window (step e s)).
Proof.
  intros Hok. destruct s as [self q].
  destruct e; unfold step; cbn [window queued].
  - destruct (lineEnabled (url_input self)) eqn:Hu; [|done].
    cbn [window]. apply (controls_ok_frame self); try done.
  - destruct (fetch_button self) eqn:Hf; [|done].
    destruct (decide (strip (text (url_input self)) = [])) as [Hu|Hu].
    + by rewrite (fetch_video_info_blank _ Hu).
    + rewrite (fetch_video_info_closed _ Hu). unfold start_worker.
      cbn [window]. destruct Hok. by constructor.
  - destruct (isEnabled (video_quality_combo self)); [|done].
    cbn [window]. unfold select_video.
    destruct (change_video_combo_closed (setCurrentIndex index) self)
      as (b & ->).
    by apply (controls_ok_frame self).
  - destruct (isEnabled (audio_quality_combo self)); [|done].
    by apply (controls_ok_frame self).
  - by apply (controls_ok_frame self).
  - by apply (controls_ok_frame self).
  - by apply (controls_ok_frame self).
  - cbn [window]. destruct directory; [done|].
    by apply (controls_ok_frame self).
  - destruct (download_button self) eqn:Hd; [|done].
    destruct (download_clip self) as [self' o] eqn:Hc.
    destruct o as [box|cmd|e].
    + cbn [window].
      by destruct (download_clip_not_started _ _ _ Hc) as [-> | ->];
        [| |apply (controls_ok_frame self)].
    + pose proof (download_clip_state _ _ _ Hc) as ->.
      unfold start_worker. cbn [window].
      destruct (ok_download _ Hok Hd) as [_ Hi].
      destruct Hok. by constructor.
    + cbn [window].
      by destruct (download_clip_not_started _ _ _ Hc) as [-> | ->];
        [| |apply (controls_ok_frame self)].
  - destruct q as [|sig rest]; [done|]. cbn [window].
    by apply controls_ok_deliver.
Qed.

(** X19: at any time of a session the URL field is enabled exactly when
    the fetch button is, the video box exactly when the download button
    is, and the download button is enabled only while the fetch button is
    enabled and metadata is stored. *)
Theorem session_controls events home :
  let self := window (run_events events (start home)) in
  lineEnabled (url_input self) = fetch_button self
  /\ isEnabled (video_quality_combo self) = download_button self
  /\ (download_button self = true ->
      fetch_button self = true /\ is_Some (video_info self)).
Proof.
  intros self.
  assert (controls_ok self) as [Hu Hv Hd _]; [|done].
  subst self. unfold run_events.
  assert (controls_ok (window (start home))) as Hs
    by apply controls_ok_start.
  revert Hs. generalize (start home).
  induction events as [|e events IH]; intros s Hs; [done|].
  simpl. by apply IH, step_controls_ok.
Qed.

End Controls.
